(** * Course-maker consumer: a shallow embedding of [main.py] and
    [courseGenerator/generator.py]

    The consumer receives one course outline per Kafka message, asks a
    text-generation service for a description and for the content of each
    module, assembles a markdown document from three templates, writes it
    under [generated_courses/], and commits the message.

    Conventions of the embedding.
    - Python text is modelled as [string] over ASCII characters: [lower] and
      [strip] act on the ASCII letters and the ASCII white space, which is
      what [str.lower] and [str.strip] do on such text.
    - A decoded message payload is an untyped [json] value; every Python
      operation used on it ([v[k]], [k in v], [v.get], [v.lower()], iteration,
      [sep.join]) is a partial function returning [Ok] or [Raise].
    - Effects (log records, calls to the text service, file-system
      operations, offset commits) are appended to a trace kept in the
      [World]; the answers of the outside world are read from an [Env],
      indexed by a clock that advances at every external call, so the same
      request may be answered differently each time it is issued.
    - Exceptions are values of [exn]; all of them are subclasses of Python's
      [Exception], so every [except Exception] handler catches them. State
      changes made before an exception is raised are kept. *)

From Stdlib Require Import String Ascii List Bool Arith ZArith Lia.
From Stdlib Require Import DecimalString.
Import ListNotations.
Local Open Scope list_scope.
Local Open Scope string_scope.

(** ** Text *)

Module Text.

Definition nl : string := String (ascii_of_nat 10) EmptyString.

(** [str.lower] on an ASCII character; text is ASCII throughout, so
    nothing is said of the characters whose lowercase form is longer. *)
Definition lower_ascii (c : ascii) : ascii :=
  let n := nat_of_ascii c in
  if ((65 <=? n) && (n <=? 90))%nat then ascii_of_nat (n + 32) else c.

Fixpoint lower (s : string) : string :=
  match s with
  | EmptyString => EmptyString
  | String c r => String (lower_ascii c) (lower r)
  end.

(** [s.replace(a, b)] for one-character [a] and [b]. *)
Fixpoint replace (a b : ascii) (s : string) : string :=
  match s with
  | EmptyString => EmptyString
  | String c r => String (if Ascii.eqb c a then b else c) (replace a b r)
  end.

(** [needle in hay] on strings: substring test. *)
Fixpoint contains (needle hay : string) : bool :=
  String.prefix needle hay
  || match hay with
     | EmptyString => false
     | String _ r => contains needle r
     end.

(** The characters [str.strip] removes: tab, line feed, vertical tab, form
    feed, carriage return, the four separators 28..31 and the space. *)
Definition is_space (c : ascii) : bool :=
  let n := nat_of_ascii c in
  (((9 <=? n) && (n <=? 13)) || ((28 <=? n) && (n <=? 32)))%nat.

Fixpoint lstrip (s : string) : string :=
  match s with
  | EmptyString => EmptyString
  | String c r => if is_space c then lstrip r else s
  end.

Fixpoint rstrip (s : string) : string :=
  match s with
  | EmptyString => EmptyString
  | String c r =>
      match rstrip r with
      | EmptyString => if is_space c then EmptyString else String c EmptyString
      | r' => String c r'
      end
  end.

Definition strip (s : string) : string := rstrip (lstrip s).

(** [sep.join(parts)] *)
Fixpoint join (sep : string) (parts : list string) : string :=
  match parts with
  | [] => EmptyString
  | [p] => p
  | p :: rest => p ++ sep ++ join sep rest
  end.

(** [f"{n}"] for a non-negative integer. *)
Definition string_of_nat (n : nat) : string :=
  NilEmpty.string_of_uint (Nat.to_uint n).

(** A string as the list of its one-character strings (iteration over a
    Python string). *)
Fixpoint chars (s : string) : list string :=
  match s with
  | EmptyString => []
  | String c r => String c EmptyString :: chars r
  end.

End Text.
Import Text.

(** ** Exceptions and results *)

Inductive exn : Type :=
| KeyError (key : string)
| TypeError
| AttributeError
| ValueError
| ServiceError          (* raised by the text-generation client *)
| OSError.              (* raised by the file system *)

Inductive result (A : Type) : Type :=
| Ok (a : A)
| Raise (e : exn).
Arguments Ok {A} a.
Arguments Raise {A} e.

Definition bindR {A B} (c : result A) (k : A -> result B) : result B :=
  match c with
  | Ok a => k a
  | Raise e => Raise e
  end.

Declare Scope result_scope.
Delimit Scope result_scope with R.
Notation "x <- c ;; k" := (bindR c (fun x => k))
  (at level 61, c at next level, right associativity) : result_scope.

Fixpoint mapR {A B} (f : A -> result B) (l : list A) : result (list B) :=
  match l with
  | [] => Ok []
  | a :: r =>
      (b <- f a ;;
       bs <- mapR f r ;;
       Ok (b :: bs))%R
  end.

(** ** JSON values and the Python operations used on them *)

#[warnings="-register-all"]
Inductive json : Type :=
| VNone
| VBool (b : bool)
| VInt (z : Z)
| VFloat (literal : string)
| VStr (s : string)
| VList (l : list json)
| VDict (d : list (string * json)).

Module Py.

Fixpoint assoc {A} (k : string) (d : list (string * A)) : option A :=
  match d with
  | [] => None
  | (k', v) :: r => if String.eqb k k' then Some v else assoc k r
  end.

(** Keys of a dict in insertion order, each once. *)
Fixpoint dict_keys {A} (d : list (string * A)) : list string :=
  match d with
  | [] => []
  | (k, _) :: r => k :: filter (fun k' => negb (String.eqb k' k)) (dict_keys r)
  end.

Definition is_str (k : string) (v : json) : bool :=
  match v with
  | VStr s => String.eqb s k
  | _ => false
  end.

(** [v[k]] for a string key [k]. *)
Definition getitem (v : json) (k : string) : result json :=
  match v with
  | VDict d =>
      match assoc k d with
      | Some x => Ok x
      | None => Raise (KeyError k)
      end
  | _ => Raise TypeError
  end.

(** [k in v] for a string [k]. *)
Definition contains_key (k : string) (v : json) : result bool :=
  match v with
  | VDict d => Ok (match assoc k d with Some _ => true | None => false end)
  | VList l => Ok (existsb (is_str k) l)
  | VStr s => Ok (contains k s)
  | _ => Raise TypeError
  end.

(** [v.get(k, default)] *)
Definition get (v : json) (k : string) (default : json) : result json :=
  match v with
  | VDict d =>
      match assoc k d with
      | Some x => Ok x
      | None => Ok default
      end
  | _ => Raise AttributeError
  end.

(** [v.lower()] *)
Definition lower (v : json) : result string :=
  match v with
  | VStr s => Ok (Text.lower s)
  | _ => Raise AttributeError
  end.

(** [for x in v] *)
Definition iter (v : json) : result (list json) :=
  match v with
  | VList l => Ok l
  | VStr s => Ok (map VStr (chars s))
  | VDict d => Ok (map VStr (dict_keys d))
  | _ => Raise TypeError
  end.

(** [sep.join(items)]: every item must be a string. *)
Definition join (sep : string) (items : list json) : result string :=
  (strs <- mapR (fun v => match v with
                          | VStr s => Ok s
                          | _ => Raise TypeError
                          end) items ;;
   Ok (Text.join sep strs))%R.

(** [all(k in v for k in keys)], lazily from the left. *)
Fixpoint all_in (keys : list string) (v : json) : result bool :=
  match keys with
  | [] => Ok true
  | k :: r =>
      (b <- contains_key k v ;;
       if b then all_in r v else Ok false)%R
  end.

(** [str.format] with keyword arguments, for templates whose replacement fields are
    plain names: [{name}] is replaced by the argument of that name, doubled
    braces stand for themselves. [field] holds the name being read after an
    opening brace. *)
Fixpoint format_from (tpl : string) (field : option string)
    (kwargs : list (string * string)) : result string :=
  match tpl, field with
  | EmptyString, None => Ok EmptyString
  | EmptyString, Some _ => Raise ValueError
  | String c r, Some name =>
      if Ascii.eqb c "}"%char then
        match assoc name kwargs with
        | Some v => (rest <- format_from r None kwargs ;; Ok (v ++ rest))%R
        | None => Raise (KeyError name)
        end
      else if Ascii.eqb c "{"%char then
        match name with
        | EmptyString =>
            (rest <- format_from r None kwargs ;; Ok (String "{"%char rest))%R
        | _ => Raise ValueError
        end
      else format_from r (Some (name ++ String c EmptyString)) kwargs
  | String c r, None =>
      if Ascii.eqb c "{"%char then format_from r (Some EmptyString) kwargs
      else if Ascii.eqb c "}"%char then
        match r with
        | String c' r' =>
            if Ascii.eqb c' "}"%char then
              (rest <- format_from r' None kwargs ;; Ok (String "}"%char rest))%R
            else Raise ValueError
        | EmptyString => Raise ValueError
        end
      else (rest <- format_from r None kwargs ;; Ok (String c rest))%R
  end.

Definition format (tpl : string) (kwargs : list (string * string))
  : result string :=
  format_from tpl None kwargs.

End Py.

(** ** The outside world *)

(** A message as the consumer yields it: [message.value] is the payload
    already decoded by the consumer's [value_deserializer]. *)
Record ConsumerRecord : Type := {
  offset : Z;
  value : json
}.

(** The four prompts of the generator, named after the variables that
    hold them. *)
Inductive prompt : Type :=
| description_prompt     (* generate_course_description: prompt_template *)
| module_prompt          (* generate_standard_module: prompt_template *)
| content_prompt         (* generate_software_module: content_prompt *)
| code_prompt.           (* generate_software_module: code_prompt *)

(** What the embedding leaves to the outside. The answers are indexed by the
    clock of the [World]. [str_of] is Python's [str()] on a JSON value that
    is not a string (it is never applied to a [VStr]). *)
Record Env : Type := {
  ChatOpenAI_ok : nat -> bool;        (* does building the client succeed *)
  chain_answer : nat -> option string; (* text of [chain.run], or it raises *)
  makedirs_ok : nat -> bool;
  write_ok : nat -> bool;
  str_of : json -> string
}.

Inductive level : Type := INFO | ERROR.

Inductive log_record : Type :=
| LogReceived (message : ConsumerRecord)
| LogInvalidFormat (course_data : json)
| LogProcessed (title : json)
| LogErrorProcessing (e : exn)
| LogGenerating (title : json)
| LogErrorGenerating (e : exn)
| LogSaved (filepath : string)
| LogErrorSaving (e : exn).

Inductive event : Type :=
| EvLog (lvl : level) (r : log_record)
| EvChatOpenAI (ok : bool)
| EvChainRun (p : prompt) (title : json) (context : string)
             (answer : option string)
| EvMakedirs (dir : string) (ok : bool)
| EvWrite (filepath content : string) (ok : bool)
| EvCommit (offset : Z).

Record World : Type := {
  clock : nat;
  files : list (string * string);
  trace : list event
}.

(** ** Computations: state that survives exceptions *)

Definition M (A : Type) : Type := World -> result A * World.

Definition ret {A} (a : A) : M A := fun w => (Ok a, w).

Definition raise {A} (e : exn) : M A := fun w => (Raise e, w).

Definition bindM {A B} (c : M A) (k : A -> M B) : M B :=
  fun w =>
    match c w with
    | (Ok a, w') => k a w'
    | (Raise e, w') => (Raise e, w')
    end.

Definition lift {A} (r : result A) : M A := fun w => (r, w).

(** [try: c except Exception as e: handler e] *)
Definition try_except {A} (c : M A) (handler : exn -> M A) : M A :=
  fun w =>
    match c w with
    | (Ok a, w') => (Ok a, w')
    | (Raise e, w') => handler e w'
    end.

Declare Scope m_scope.
Delimit Scope m_scope with M.
Notation "x <- c ;; k" := (bindM c (fun x => k))
  (at level 61, c at next level, right associativity) : m_scope.
Notation "c ;; k" := (bindM c (fun _ => k))
  (at level 61, right associativity) : m_scope.

Definition emit (e : event) : M unit :=
  fun w => (Ok tt, {| clock := clock w; files := files w;
                      trace := (trace w ++ [e])%list |}).

(** An external call: the clock advances and the event is recorded whether
    the call succeeds or raises. *)
Definition external (e : event) : World -> World :=
  fun w => {| clock := S (clock w); files := files w;
              trace := (trace w ++ [e])%list |}.

Fixpoint for_each {A S} (items : list A) (acc : S) (body : A -> S -> M S)
  : M S :=
  match items with
  | [] => ret acc
  | x :: r => (acc' <- body x acc ;; for_each r acc' body)%M
  end.

Definition logger_info (r : log_record) : M unit := emit (EvLog INFO r).
Definition logger_error (r : log_record) : M unit := emit (EvLog ERROR r).

(** ** [courseGenerator/generator.py] *)

Definition MODULE_TEMPLATE : string := "
## {module_title}

{module_content}
".

Definition SOFTWARE_MODULE_TEMPLATE : string := "
## {module_title}

{module_content}

### Code Examples

{code_examples}
".

Definition COURSE_TEMPLATE : string := "
# {course_title}

{course_description}

## Table of Contents
{table_of_contents}

{modules_content}
".

Definition software_keywords : list string :=
  [ "software"; "programming"; "coding"; "development"; "javascript";
    "python"; "java"; "c++"; "web"; "app"; "database"; "frontend";
    "backend"; "fullstack"; "data science"; "machine learning" ].

(** [any(keyword in category.lower() for keyword in keywords)]:
    [category.lower()] is evaluated anew for every keyword tried. *)
Fixpoint any_keyword_in (keywords : list string) (category : json)
  : result bool :=
  match keywords with
  | [] => Ok false
  | keyword :: r =>
      (lowered <- Py.lower category ;;
       if contains keyword lowered then Ok true
       else any_keyword_in r category)%R
  end.

Definition is_software_course (category : json) : result bool :=
  any_keyword_in software_keywords category.

(** The argument that [generate_course_content] passes to
    [is_software_course]:
    ['software' in course_data.get('category', '').lower()
     or 'programming' in course_data.get('category', '').lower()]. *)
Definition software_or_programming (course_data : json) : result json :=
  (category <- Py.get course_data "category" (VStr EmptyString) ;;
   lowered <- Py.lower category ;;
   if contains "software" lowered then Ok (VBool true)
   else
     category' <- Py.get course_data "category" (VStr EmptyString) ;;
     lowered' <- Py.lower category' ;;
     Ok (VBool (contains "programming" lowered')))%R.

(** [enumerate(items, 1)] *)
Fixpoint enumerate_from {A} (start : nat) (items : list A)
  : list (nat * A) :=
  match items with
  | [] => []
  | x :: r => (start, x) :: enumerate_from (S start) r
  end.

(** A [for] loop over a pure, fallible body that updates an accumulator. *)
Fixpoint foldR {A S} (items : list A) (acc : S) (body : A -> S -> result S)
  : result S :=
  match items with
  | [] => Ok acc
  | x :: r => (acc' <- body x acc ;; foldR r acc' body)%R
  end.

Section Pipeline.

Variable env : Env.

(** [format(v)] as an f-string or [str.format] inserts it. *)
Definition str (v : json) : string :=
  match v with
  | VStr s => s
  | _ => str_of env v
  end.

(** [f"{x['title']}](#{x['title'].lower().replace(' ', '-')})"]: the
    bracketed title and its anchor, shared by both kinds of entry. *)
Definition link (x : json) : result string :=
  (title <- Py.getitem x "title" ;;
   title' <- Py.getitem x "title" ;;
   lowered <- Py.lower title' ;;
   Ok ("[" ++ str title ++ "](#" ++ replace " " "-" lowered ++ ")"))%R.

Definition generate_table_of_contents (modules : json) : result string :=
  (items <- Py.iter modules ;;
   toc <- foldR (enumerate_from 1 items) []
     (fun '(i, module) toc =>
        entry <- link module ;;
        let module_entry := string_of_nat i ++ ". " ++ entry in
        let toc := (toc ++ [module_entry])%list in
        has_sections <- Py.contains_key "sections" module ;;
        if has_sections then
          sections <- Py.getitem module "sections" ;;
          section_items <- Py.iter sections ;;
          foldR (enumerate_from 1 section_items) toc
            (fun '(j, section) toc =>
               entry <- link section ;;
               let section_entry :=
                 "   " ++ string_of_nat i ++ "." ++ string_of_nat j ++ ". "
                 ++ entry in
               Ok (toc ++ [section_entry])%list)
        else Ok toc) ;;
   Ok (join nl toc))%R.

(** [ChatOpenAI(...)] *)
Definition ChatOpenAI : M unit :=
  fun w =>
    let ok := ChatOpenAI_ok env (clock w) in
    (if ok then Ok tt else Raise ServiceError, external (EvChatOpenAI ok) w).

(** [LLMChain(llm=llm, prompt=p).run(title=title, ...=context)] *)
Definition chain_run (p : prompt) (title : json) (context : string)
  : M string :=
  fun w =>
    let answer := chain_answer env (clock w) in
    (match answer with
     | Some text => Ok text
     | None => Raise ServiceError
     end, external (EvChainRun p title context answer) w).

Definition generate_course_description (course_data : json) : M string :=
  (modules <- lift (Py.getitem course_data "modules") ;;
   items <- lift (Py.iter modules) ;;
   module_titles <- lift (mapR (fun module => Py.getitem module "title")
                               items) ;;
   title <- lift (Py.getitem course_data "title") ;;
   context <- lift (Py.join ", " module_titles) ;;
   description <- chain_run description_prompt title context ;;
   ret (strip description))%M.

(** The section titles of a module and the [sections=] argument built from
    them. *)
Definition section_titles_of (module : json) : result (list json) :=
  (has_sections <- Py.contains_key "sections" module ;;
   if has_sections then
     sections <- Py.getitem module "sections" ;;
     section_items <- Py.iter sections ;;
     mapR (fun section => Py.getitem section "title") section_items
   else Ok [])%R.

Definition sections_argument (section_titles : list json) : result string :=
  match section_titles with
  | [] => Ok "No specific sections"
  | _ => Py.join ", " section_titles
  end.

Definition generate_standard_module (module : json) : M string :=
  (section_titles <- lift (section_titles_of module) ;;
   title <- lift (Py.getitem module "title") ;;
   context <- lift (sections_argument section_titles) ;;
   content <- chain_run module_prompt title context ;;
   title' <- lift (Py.getitem module "title") ;;
   lift (Py.format MODULE_TEMPLATE
           [("module_title", str title');
            ("module_content", strip content)]))%M.

Definition generate_software_module (module : json) : M string :=
  (section_titles <- lift (section_titles_of module) ;;
   title <- lift (Py.getitem module "title") ;;
   context <- lift (sections_argument section_titles) ;;
   content <- chain_run content_prompt title context ;;
   title' <- lift (Py.getitem module "title") ;;
   context' <- lift (sections_argument section_titles) ;;
   code_examples <- chain_run code_prompt title' context' ;;
   title'' <- lift (Py.getitem module "title") ;;
   lift (Py.format SOFTWARE_MODULE_TEMPLATE
           [("module_title", str title'');
            ("module_content", strip content);
            ("code_examples", strip code_examples)]))%M.

Definition generate_module_content (module : json) (is_software : bool)
  : M string :=
  if is_software then generate_software_module module
  else generate_standard_module module.

(** [COURSE_TEMPLATE.format(...)] as the last step of
    [generate_course_content] calls it. *)
Definition complete_course (title : json) (course_description toc : string)
    (modules_content : list string) : result string :=
  Py.format COURSE_TEMPLATE
    [("course_title", str title);
     ("course_description", course_description);
     ("table_of_contents", toc);
     ("modules_content", join (nl ++ nl) modules_content)].

Definition generate_course_content (course_data : json) : M string :=
  try_except
    (title <- lift (Py.getitem course_data "title") ;;
     logger_info (LogGenerating title) ;;
     ChatOpenAI ;;
     course_description <- generate_course_description course_data ;;
     modules <- lift (Py.getitem course_data "modules") ;;
     toc <- lift (generate_table_of_contents modules) ;;
     modules' <- lift (Py.getitem course_data "modules") ;;
     items <- lift (Py.iter modules') ;;
     modules_content <- for_each items []
       (fun module modules_content =>
          is_software <- lift (flag <- software_or_programming course_data ;;
                               is_software_course flag)%R ;;
          module_content <- generate_module_content module is_software ;;
          ret (modules_content ++ [module_content])%list) ;;
     title' <- lift (Py.getitem course_data "title") ;;
     lift (complete_course title' course_description toc modules_content))%M
    (fun e => (logger_error (LogErrorGenerating e) ;; raise e)%M).

(** ** [main.py] *)

Definition os_makedirs (dir : string) : M unit :=
  fun w =>
    let ok := makedirs_ok env (clock w) in
    (if ok then Ok tt else Raise OSError, external (EvMakedirs dir ok) w).

(** [with open(filepath, 'w') as f: f.write(content)]: the file holds
    exactly [content] afterwards when the write succeeds. A refused write
    stands for an [open] that raises before the file is created or
    truncated (the store or the operating system rejects the path), and
    its exception is rendered as [OSError]; a failure between the
    truncation and the end of [f.write] is not represented. *)
Definition open_write (filepath content : string) : M unit :=
  fun w =>
    let ok := write_ok env (clock w) in
    let w' := external (EvWrite filepath content ok) w in
    if ok then
      (Ok tt, {| clock := clock w';
                 files := (filepath, content) :: files w';
                 trace := trace w' |})
    else (Raise OSError, w').

Definition sanitize (lowered : string) : string :=
  replace "\" "_" (replace "/" "_" (replace " " "_" lowered)).

Definition save_course_content (title : json) (content : string) : M unit :=
  try_except
    (os_makedirs "generated_courses" ;;
     lowered <- lift (Py.lower title) ;;
     let filename := sanitize lowered in
     let filepath := "generated_courses/" ++ filename ++ ".md" in
     open_write filepath content ;;
     logger_info (LogSaved filepath))%M
    (fun e => logger_error (LogErrorSaving e)).

Definition process_message (message : ConsumerRecord) : M unit :=
  try_except
    (logger_info (LogReceived message) ;;
     let course_data := value message in
     valid <- lift (Py.all_in ["title"; "modules"] course_data) ;;
     if negb valid then
       logger_error (LogInvalidFormat course_data)
     else
       course_content <- generate_course_content course_data ;;
       title <- lift (Py.getitem course_data "title") ;;
       save_course_content title course_content ;;
       title' <- lift (Py.getitem course_data "title") ;;
       logger_info (LogProcessed title'))%M
    (fun e => logger_error (LogErrorProcessing e)).

(** [consumer.commit()] after [message] has been yielded. *)
Definition consumer_commit (message : ConsumerRecord) : M unit :=
  emit (EvCommit (offset message)).

(** The loop of [main]:
    [for message in consumer: process_message(message); consumer.commit()],
    over the messages the consumer yields. *)
Fixpoint main_loop (delivered : list ConsumerRecord) : M unit :=
  match delivered with
  | [] => ret tt
  | message :: r =>
      (process_message message ;;
       consumer_commit message ;;
       main_loop r)%M
  end.

End Pipeline.

(** ** The typed outline of the data model, as a view of the payload *)

Record ModuleOutline : Type := {
  module_title : string;
  section_titles : list string
}.

Definition section_view (v : json) : option string :=
  match v with
  | VDict d =>
      match Py.assoc "title" d with
      | Some (VStr title) => Some title
      | _ => None
      end
  | _ => None
  end.

Fixpoint all_some {A} (l : list (option A)) : option (list A) :=
  match l with
  | [] => Some []
  | None :: _ => None
  | Some a :: r =>
      match all_some r with
      | Some r' => Some (a :: r')
      | None => None
      end
  end.

(** A module outline is an object with a string [title] and, optionally, an
    array [sections] of objects with a string [title]; other keys are
    allowed. *)
Definition module_view (v : json) : option ModuleOutline :=
  match v with
  | VDict d =>
      match Py.assoc "title" d with
      | Some (VStr title) =>
          match Py.assoc "sections" d with
          | None => Some {| module_title := title; section_titles := [] |}
          | Some (VList l) =>
              match all_some (map section_view l) with
              | Some titles =>
                  Some {| module_title := title; section_titles := titles |}
              | None => None
              end
          | Some _ => None
          end
      | _ => None
      end
  | _ => None
  end.

Definition modules_view (v : json) : option (list ModuleOutline) :=
  match v with
  | VList l => all_some (map module_view l)
  | _ => None
  end.

(** The variant of the data model, and the one [generate_module_content]
    selects for a value of its flag. *)
Inductive GenerationVariant : Type := Standard | CodeAnnotated.

Definition variant_of (is_software : bool) : GenerationVariant :=
  if is_software then CodeAnnotated else Standard.

(** The classifier of the specification: [is_software_course] on a category
    string, read as a variant. *)
Definition classify (category : string) : result GenerationVariant :=
  (is_software <- is_software_course (VStr category) ;;
   Ok (variant_of is_software))%R.

(** The table of contents in the words of the specification: for module
    [i] the line [i. [title](#anchor)], then for its section [j] the line
    [   i.j. [title](#anchor)]. *)
Module TocSpec.

Definition anchor (title : string) : string := replace " " "-" (lower title).

Definition module_line (i : nat) (title : string) : string :=
  string_of_nat i ++ ". [" ++ title ++ "](#" ++ anchor title ++ ")".

Definition section_line (i j : nat) (title : string) : string :=
  "   " ++ string_of_nat i ++ "." ++ string_of_nat j ++ ". ["
  ++ title ++ "](#" ++ anchor title ++ ")".

Definition block (entry : nat * ModuleOutline) : list string :=
  let '(i, m) := entry in
  module_line i (module_title m)
  :: map (fun '(j, title) => section_line i j title)
         (enumerate_from 1 (section_titles m)).

Definition toc_lines (modules : list ModuleOutline) : list string :=
  concat (map block (enumerate_from 1 modules)).

End TocSpec.

(** * Vocabulary of the properties *)

(** ** Events of the generator *)

(** The events the generator can produce: its own two log records and its
    calls to the text service. *)
Definition generation_event (e : event) : Prop :=
  match e with
  | EvLog INFO (LogGenerating _)
  | EvLog ERROR (LogErrorGenerating _)
  | EvChatOpenAI _
  | EvChainRun _ _ _ _ => True
  | _ => False
  end.

(** A generation call that failed is a [chain.run] that raised. *)
Definition failed_call (e : event) : Prop :=
  match e with
  | EvChainRun _ _ _ None => True
  | _ => False
  end.

Definition answered (e : event) : Prop := ~ failed_call e.

(** A computation is [quiet] when it only adds generation events to the
    trace, leaves the files alone, and either had all its generation calls
    answered or raises the service's exception. *)
Definition quiet {A} (c : M A) : Prop :=
  forall w r w', c w = (r, w') ->
    exists evs,
      trace w' = (trace w ++ evs)%list
      /\ files w' = files w
      /\ Forall generation_event evs
      /\ (Forall answered evs \/ r = Raise ServiceError).

(** ** Outcomes and cycles *)

(** The outcome of processing one message, as the log shows it. *)
Inductive ProcessingOutcome : Type := Success | Skipped | Failed.

(** The record with which [process_message] ends tells the outcome. *)
Definition determination (e : event) : option ProcessingOutcome :=
  match e with
  | EvLog INFO (LogProcessed _) => Some Success
  | EvLog ERROR (LogInvalidFormat _) => Some Skipped
  | EvLog ERROR (LogErrorProcessing _) => Some Failed
  | _ => None
  end.

Definition is_commit (e : event) : bool :=
  match e with
  | EvCommit _ => true
  | _ => false
  end.

Definition is_write (e : event) : bool :=
  match e with
  | EvWrite _ _ _ => true
  | _ => false
  end.

(** The record with which [save_course_content] returns. *)
Definition persistence_return (e : event) : bool :=
  match e with
  | EvLog INFO (LogSaved _) => true
  | EvLog ERROR (LogErrorSaving _) => true
  | _ => false
  end.

(** The events [save_course_content] can produce. *)
Definition storage_event (e : event) : Prop :=
  match e with
  | EvMakedirs _ _
  | EvWrite _ _ _
  | EvLog INFO (LogSaved _)
  | EvLog ERROR (LogErrorSaving _) => True
  | _ => False
  end.

(** One turn of the loop for [message]: the message is received, processed
    without any commit, the outcome is determined (on [Success] right after
    [save_course_content] has returned), and only then the offset of the
    message is committed. *)
Inductive cycle (message : ConsumerRecord) : list event -> Prop :=
| cycle_intro (body : list event) (det : event) (outcome : ProcessingOutcome) :
    Forall (fun e => is_commit e = false) body ->
    determination det = Some outcome ->
    (outcome = Success ->
     exists before saved,
       body = (before ++ [saved])%list /\ persistence_return saved = true) ->
    cycle message
      (EvLog INFO (LogReceived message)
       :: body ++ [det; EvCommit (offset message)])%list.

(** The world once [process_message] has logged the message. *)
Definition received (message : ConsumerRecord) (w : World) : World :=
  {| clock := clock w; files := files w;
     trace := (trace w ++ [EvLog INFO (LogReceived message)])%list |}.

(** What a run of [process_message] looks like, by outcome. *)
Definition outcome_shape (env : Env) (message : ConsumerRecord)
    (w w' : World) (body : list event) (det : event)
    (outcome : ProcessingOutcome) : Prop :=
  match outcome with
  | Success =>
      exists gen saving saved content w1,
        generate_course_content env (value message) (received message w)
        = (Ok content, w1)
        /\ body = (gen ++ saving ++ [saved])%list
        /\ Forall generation_event gen
        /\ Forall answered gen
        /\ Forall storage_event (saving ++ [saved])
        /\ persistence_return saved = true
  | Skipped =>
      body = [] /\ files w' = files w /\ clock w' = clock w
  | Failed =>
      Forall generation_event body
      /\ files w' = files w
      /\ (Forall answered body
          \/ det = EvLog ERROR (LogErrorProcessing ServiceError))
  end.

(** ** Sample data *)

(** Sample data: a text service that always answers, a store that always
    accepts, and the outline of the specification's scenario. *)
Module Samples.

Definition answering (text : string) : Env :=
  {| ChatOpenAI_ok := fun _ => true;
     chain_answer := fun _ => Some text;
     makedirs_ok := fun _ => true;
     write_ok := fun _ => true;
     str_of := fun _ => "<object>" |}.

Definition failing : Env :=
  {| ChatOpenAI_ok := fun _ => true;
     chain_answer := fun _ => None;
     makedirs_ok := fun _ => true;
     write_ok := fun _ => true;
     str_of := fun _ => "<object>" |}.

Definition refusing (text : string) : Env :=
  {| ChatOpenAI_ok := fun _ => true;
     chain_answer := fun _ => Some text;
     makedirs_ok := fun _ => true;
     write_ok := fun _ => false;
     str_of := fun _ => "<object>" |}.

Definition start : World := {| clock := 0; files := []; trace := [] |}.

Definition basics : json :=
  VDict [("title", VStr "Basics");
         ("sections", VList [VDict [("title", VStr "Vars")];
                             VDict [("title", VStr "Loops")]])].

Definition intro_to_go : json :=
  VDict [("title", VStr "Intro to Go");
         ("category", VStr "programming");
         ("modules", VList [basics])].

Definition no_modules (title : string) : json :=
  VDict [("title", VStr title); ("modules", VList [])].

Definition untitled : json := VDict [("modules", VList [basics])].

End Samples.

(** ** Wordings of the specification *)

(** The renderings and the file name in the words of the specification:
    the renderings without the line breaks that open and close the
    templates, the name with the path separators removed. *)
Module Worded.

Definition standard_module (title body : string) : string :=
  "## " ++ title ++ nl ++ nl ++ body.

Definition annotated_module (title body code : string) : string :=
  "## " ++ title ++ nl ++ nl ++ body ++ nl ++ nl ++ "### Code Examples"
  ++ nl ++ nl ++ code.

(** The file name with the path separators removed. *)
Fixpoint strip_separators (s : string) : string :=
  match s with
  | EmptyString => EmptyString
  | String c r =>
      if Ascii.eqb c "/" || Ascii.eqb c "\" then strip_separators r
      else String c (strip_separators r)
  end.

Definition relative_name (title : string) : string :=
  strip_separators (replace " " "_" (lower title)) ++ ".md".

End Worded.

(** ** Trimmed text, contexts and file names *)

Fixpoint all_space (s : string) : bool :=
  match s with
  | EmptyString => true
  | String c r => is_space c && all_space r
  end.

Definition starts_with_space (s : string) : bool :=
  match s with
  | EmptyString => false
  | String c _ => is_space c
  end.

Fixpoint ends_with_space (s : string) : bool :=
  match s with
  | EmptyString => false
  | String c EmptyString => is_space c
  | String _ r => ends_with_space r
  end.

(** The [sections=] argument of a module of the data model: its section
    titles joined by a comma, or the sentinel when it has none. *)
Definition sections_context (titles : list string) : string :=
  match titles with
  | [] => "No specific sections"
  | _ => join ", " titles
  end.

(** The file name character by character: spaces and both path separators
    become underscores, every other character is lowercased. *)
Definition safe_char (c : ascii) : ascii :=
  if Ascii.eqb c " " || Ascii.eqb c "/" || Ascii.eqb c "\" then "_"%char
  else lower_ascii c.

Fixpoint map_string (f : ascii -> ascii) (s : string) : string :=
  match s with
  | EmptyString => EmptyString
  | String c r => String (f c) (map_string f r)
  end.

(** ** Artifacts and documents *)

(** The artifacts of the data model and their composition by the templates,
    as [generate_standard_module], [generate_software_module] and
    [generate_course_content] compose them: the texts are trimmed where the
    generator trims the answers of the service. *)
Module Composer.

Record ModuleArtifact : Type := {
  title : string;
  body : string;
  codeExamples : option string
}.

Record CourseArtifact : Type := {
  course_title : string;
  description : string;
  tableOfContents : string;
  modules : list ModuleArtifact
}.

Definition render_module (m : ModuleArtifact) : result string :=
  match codeExamples m with
  | None =>
      Py.format MODULE_TEMPLATE
        [("module_title", title m); ("module_content", strip (body m))]
  | Some code_examples =>
      Py.format SOFTWARE_MODULE_TEMPLATE
        [("module_title", title m); ("module_content", strip (body m));
         ("code_examples", strip code_examples)]
  end.

Definition render_course (a : CourseArtifact) : result string :=
  (modules_content <- mapR render_module (modules a) ;;
   Py.format COURSE_TEMPLATE
     [("course_title", course_title a);
      ("course_description", strip (description a));
      ("table_of_contents", tableOfContents a);
      ("modules_content", join (nl ++ nl) modules_content)])%R.

End Composer.

(** Reading the headings of a markdown document. The repository has no
    parser of its own output. *)
Module Markdown.

Definition newline : ascii := ascii_of_nat 10.

(** The lines of a text: the pieces between line breaks. *)
Fixpoint lines (s : string) : list string :=
  match s with
  | EmptyString => [EmptyString]
  | String c r =>
      if Ascii.eqb c newline then EmptyString :: lines r
      else match lines r with
           | l :: ls => String c l :: ls
           | [] => [String c EmptyString]
           end
  end.

Definition heading2 (line : string) : list string :=
  match line with
  | String "#" (String "#" (String " " text)) => [text]
  | _ => []
  end.

(** Modelled from the spec: re-parsing the markdown headings of the
    composed document, which the repository does not implement. A level-2
    heading is a line that starts with [## ]; its text is the rest of the
    line; the headings are read in document order. *)
Definition headings2 (doc : string) : list string :=
  flat_map heading2 (lines doc).

Fixpoint one_line (s : string) : bool :=
  match s with
  | EmptyString => true
  | String c r => negb (Ascii.eqb c newline) && one_line r
  end.

End Markdown.

Module ComposerSamples.
Import Composer.

(** Two artifacts with different modules and the same document. *)
Definition one_module : CourseArtifact :=
  {| course_title := "Course"; description := "About.";
     tableOfContents := "1. [A](#a)";
     modules :=
       [{| title := "A";
           body := "x" ++ nl ++ nl ++ nl ++ nl ++ "## B" ++ nl ++ nl ++ "y";
           codeExamples := None |}] |}.

Definition two_modules : CourseArtifact :=
  {| course_title := "Course"; description := "About.";
     tableOfContents := "1. [A](#a)";
     modules :=
       [{| title := "A"; body := "x"; codeExamples := None |};
        {| title := "B"; body := "y"; codeExamples := None |}] |}.

End ComposerSamples.

(** A module artifact whose title is one line and whose inserted texts hold
    no level-2 heading. *)
Definition plain_module (m : Composer.ModuleArtifact) : Prop :=
  Markdown.one_line (Composer.title m) = true
  /\ Markdown.headings2 (strip (Composer.body m)) = []
  /\ forall code,
       Composer.codeExamples m = Some code ->
       Markdown.headings2 (strip code) = [].

(** ** Characters of anchors and file names *)

Fixpoint string_forall (p : ascii -> bool) (s : string) : bool :=
  match s with
  | EmptyString => true
  | String c r => p c && string_forall p r
  end.

Definition is_upper (c : ascii) : bool :=
  let n := nat_of_ascii c in
  ((65 <=? n) && (n <=? 90))%nat.

Definition is_separator (c : ascii) : bool :=
  Ascii.eqb c "/" || Ascii.eqb c "\".

Definition is_blank (c : ascii) : bool := Ascii.eqb c " ".

(** The path under which [save_course_content] writes the course titled
    [title]. *)
Definition course_path (title : string) : string :=
  "generated_courses/" ++ sanitize (lower title) ++ ".md".

(** The offsets committed by a list of events, in order. *)
Definition committed (evs : list event) : list Z :=
  flat_map (fun e => match e with
                     | EvCommit o => [o]
                     | _ => []
                     end) evs.

(** ** [main.py]: configuration, [create_consumer] and [main]

    The broker is an external collaborator. Building the consumer either
    returns or raises; each turn of [for message in consumer] either yields
    a decoded message, raises (for instance when the [value_deserializer]
    cannot decode the payload) or is interrupted from the keyboard; and
    the [consumer.commit()] after a message either returns or raises. An
    interrupt is modelled where the loop waits for the next message. *)

(** [os.getenv(name, default)] on the environment of the process. *)
Definition getenv (environ : list (string * string)) (name default : string)
  : string :=
  match Py.assoc name environ with
  | Some v => v
  | None => default
  end.

Definition CONSUMER_GROUP (environ : list (string * string)) : string :=
  getenv environ "KAFKA_CONSUMER_GROUP" "course_generator_group".
Definition KAFKA_BROKERS (environ : list (string * string)) : string :=
  getenv environ "KAFKA_BROKERS" "localhost:9092".
Definition KAFKA_TOPIC (environ : list (string * string)) : string :=
  getenv environ "KAFKA_TOPIC" "course_topics".
Definition KAFKA_USERNAME (environ : list (string * string)) : string :=
  getenv environ "KAFKA_USERNAME" EmptyString.
Definition KAFKA_PASSWORD (environ : list (string * string)) : string :=
  getenv environ "KAFKA_PASSWORD" EmptyString.

(** The arguments of [KafkaConsumer(...)] that depend on the call or
    decide how offsets are handled. *)
Record ConsumerConfig : Type := {
  topic : string;
  bootstrap_servers : string;
  sasl_plain_username : string;
  sasl_plain_password : string;
  group_id : string;
  auto_offset_reset : string;
  enable_auto_commit : bool
}.

Inductive main_record : Type :=
| LogStarting
| LogErrorCreating (e : exn)
| LogSubscribed (topic : string)
| LogStopped
| LogUnexpected (e : exn)
| LogClosed.

Inductive session_event : Type :=
| SLog (lvl : level) (r : main_record)
| SKafkaConsumer (config : ConsumerConfig) (ok : bool)
| SPipeline (e : event)
| SClose.

(** One turn of the loop as the broker decides it. *)
Inductive fetch : Type :=
| Yield (message : ConsumerRecord) (commit : option exn)
| FetchRaises (e : exn)
| FetchInterrupted.

(** How the loop ends. *)
Inductive loop_end : Type :=
| Exhausted
| Interrupted
| Crashed (e : exn).

(** [create_consumer(brokers, topic, username, password)]: the events of the
    call and the exception it raises, if any. *)
Definition create_consumer (environ : list (string * string))
    (connect : option exn) (brokers topic username password : string)
  : list session_event * option exn :=
  let config :=
    {| topic := topic; bootstrap_servers := brokers;
       sasl_plain_username := username; sasl_plain_password := password;
       group_id := CONSUMER_GROUP environ;
       auto_offset_reset := "latest"; enable_auto_commit := false |} in
  match connect with
  | None => ([SKafkaConsumer config true], None)
  | Some e =>
      ([SKafkaConsumer config false; SLog ERROR (LogErrorCreating e)],
       Some e)
  end.

(** The loop of [main] against a broker that may fail:
    [for message in consumer: process_message(message); consumer.commit()]
    until the iteration ends, raises or is interrupted. *)
Fixpoint consume (env : Env) (script : list fetch) (w : World)
  : loop_end * World :=
  match script with
  | [] => (Exhausted, w)
  | FetchInterrupted :: _ => (Interrupted, w)
  | FetchRaises e :: _ => (Crashed e, w)
  | Yield message commit :: rest =>
      match process_message env message w with
      | (Raise e, w1) => (Crashed e, w1)
      | (Ok _, w1) =>
          match commit with
          | Some e => (Crashed e, w1)
          | None =>
              match consumer_commit message w1 with
              | (Raise e, w2) => (Crashed e, w2)
              | (Ok _, w2) => consume env rest w2
              end
          end
      end
  end.

(** [main()], started on the files [store]: the events of the session, with
    the events of the pipeline in their place, and the final world. *)
Definition main (env : Env) (environ : list (string * string))
    (connect : option exn) (script : list fetch)
    (store : list (string * string)) : list session_event * World :=
  let w0 := {| clock := 0; files := store; trace := [] |} in
  let '(created, failure) :=
    create_consumer environ connect (KAFKA_BROKERS environ)
      (KAFKA_TOPIC environ) (KAFKA_USERNAME environ)
      (KAFKA_PASSWORD environ) in
  match failure with
  | Some e =>
      (SLog INFO LogStarting :: created ++ [SLog ERROR (LogUnexpected e)],
       w0)%list
  | None =>
      let '(ending, w) := consume env script w0 in
      (SLog INFO LogStarting :: created
       ++ [SLog INFO (LogSubscribed (KAFKA_TOPIC environ))]
       ++ map SPipeline (trace w)
       ++ match ending with
          | Exhausted => []
          | Interrupted => [SLog INFO LogStopped]
          | Crashed e => [SLog ERROR (LogUnexpected e)]
          end
       ++ [SClose; SLog INFO LogClosed], w)%list
  end.

(** The messages of a script that are processed and committed: those
    yielded, with a commit that returns, before the loop ends. *)
Fixpoint completed (script : list fetch) : list ConsumerRecord :=
  match script with
  | Yield message None :: rest => message :: completed rest
  | _ => []
  end.

(** The message of a script that is processed but whose commit raises. *)
Fixpoint pending (script : list fetch) : option ConsumerRecord :=
  match script with
  | Yield _ None :: rest => pending rest
  | Yield message (Some _) :: _ => Some message
  | _ => None
  end.

(** How the loop ends on a script. *)
Fixpoint ending_of (script : list fetch) : loop_end :=
  match script with
  | [] => Exhausted
  | Yield _ None :: rest => ending_of rest
  | Yield _ (Some e) :: _ => Crashed e
  | FetchRaises e :: _ => Crashed e
  | FetchInterrupted :: _ => Interrupted
  end.

(** A turn after which the loop does not go on. *)
Definition stops (step : fetch) : bool :=
  match step with
  | Yield _ None => false
  | _ => true
  end.

(** * Properties *)

(** ** Text lemmas *)

Lemma prefix_iff (p s : string) :
  String.prefix p s = true <-> exists post, s = p ++ post.
Proof.
  revert s; induction p as [|c p IH]; intros s.
  - split; [intros _; exists s; reflexivity | destruct s; reflexivity].
  - destruct s as [|c' s]; simpl.
    + split; [discriminate | intros [post H]; discriminate].
    + destruct (Ascii.ascii_dec c c') as [->|Hne].
      * rewrite IH. split; intros [post H]; exists post;
          [now subst | now inversion H].
      * split; [discriminate | intros [post H]; inversion H; congruence].
Qed.

Lemma contains_iff (needle hay : string) :
  contains needle hay = true <-> exists pre post, hay = pre ++ needle ++ post.
Proof.
  induction hay as [|c hay IH].
  - change (contains needle EmptyString)
      with (String.prefix needle EmptyString || false).
    rewrite orb_false_r, prefix_iff. split.
    + intros [post H]. exists EmptyString, post. exact H.
    + intros [pre [post H]]. destruct pre; [exists post; exact H|discriminate].
  - change (contains needle (String c hay))
      with (String.prefix needle (String c hay) || contains needle hay).
    rewrite orb_true_iff, IH, prefix_iff. split.
    + intros [[post H]|[pre [post H]]].
      * exists EmptyString, post. exact H.
      * exists (String c pre), post. simpl. now rewrite H.
    + intros [pre [post H]]. destruct pre as [|c' pre]; simpl in H.
      * left. exists post. exact H.
      * right. inversion H. now exists pre, post.
Qed.

Lemma lower_app (a b : string) : lower (a ++ b) = lower a ++ lower b.
Proof. induction a as [|c a IH]; simpl; [reflexivity | now rewrite IH]. Qed.

Lemma lower_ascii_idem (c : ascii) : lower_ascii (lower_ascii c) = lower_ascii c.
Proof.
  destruct c as [[] [] [] [] [] [] [] []]; reflexivity.
Qed.

Lemma lower_idem (s : string) : lower (lower s) = lower s.
Proof.
  induction s as [|c s IH]; simpl; [reflexivity|].
  now rewrite lower_ascii_idem, IH.
Qed.

Lemma any_keyword_in_str (keywords : list string) (s : string) :
  any_keyword_in keywords (VStr s)
  = Ok (existsb (fun keyword => contains keyword (lower s)) keywords).
Proof.
  induction keywords as [|k r IH]; simpl; [reflexivity|].
  destruct (contains k (lower s)); [reflexivity | exact IH].
Qed.

Lemma is_software_course_iff (s : string) :
  is_software_course (VStr s) = Ok true
  <-> exists keyword pre post,
        In keyword software_keywords /\ lower s = pre ++ keyword ++ post.
Proof.
  unfold is_software_course. rewrite any_keyword_in_str.
  generalize software_keywords as keywords. intros keywords. split.
  - intros H. injection H as H. apply existsb_exists in H.
    destruct H as [k [Hin Hc]]. apply contains_iff in Hc.
    destruct Hc as [pre [post Hc]]. now exists k, pre, post.
  - intros [k [pre [post [Hin Hc]]]]. f_equal. apply existsb_exists.
    exists k. split; [exact Hin|]. apply contains_iff. now exists pre, post.
Qed.

(** C5. [is_software_course] is a total function of the category string: it
    returns [true] (CodeAnnotated) exactly when some keyword of the fixed
    list occurs as a substring of the lowercased category and [false]
    (Standard) otherwise; the list holds the keywords the specification
    names; the answer depends on the category only up to letter case; every
    category containing "python" in any case is CodeAnnotated, "History" is
    Standard and "Biosoftware" is CodeAnnotated. *)
Theorem is_software_course_classifies :
  (forall category, exists is_software,
      is_software_course (VStr category) = Ok is_software
      /\ classify category = Ok (variant_of is_software)
      /\ (is_software = true
          <-> exists keyword pre post,
                In keyword software_keywords
                /\ lower category = pre ++ keyword ++ post))
  /\ (forall keyword,
        In keyword ["software"; "programming"; "python"; "web"; "database";
                    "machine learning"] ->
        In keyword software_keywords)
  /\ (forall c1 c2, lower c1 = lower c2 ->
        is_software_course (VStr c1) = is_software_course (VStr c2))
  /\ (forall pre python post, lower python = "python" ->
        classify (pre ++ python ++ post) = Ok CodeAnnotated)
  /\ classify "History" = Ok Standard
  /\ classify "Biosoftware" = Ok CodeAnnotated.
Proof.
  split; [|split; [|split; [|split; [|split]]]].
  - intros category.
    exists (existsb (fun k => contains k (lower category)) software_keywords).
    assert (E : is_software_course (VStr category)
                = Ok (existsb (fun k => contains k (lower category))
                              software_keywords))
      by apply any_keyword_in_str.
    split; [exact E|]. split.
    + unfold classify. now rewrite E.
    + rewrite <- is_software_course_iff, E.
      split; [intros ->; reflexivity | intros H; now injection H].
  - intros keyword H. simpl in H. unfold software_keywords.
    repeat (destruct H as [<-|H]; [simpl; tauto|]). contradiction.
  - intros c1 c2 H. unfold is_software_course.
    now rewrite !any_keyword_in_str, H.
  - intros pre python post H. unfold classify.
    assert (E : is_software_course (VStr (pre ++ python ++ post)) = Ok true).
    { apply is_software_course_iff.
      exists "python", (lower pre), (lower post). split.
      - unfold software_keywords. simpl. tauto.
      - now rewrite !lower_app, H. }
    now rewrite E.
  - reflexivity.
  - reflexivity.
Qed.

(** ** The table of contents *)

Lemma all_some_cons {A} (o : option A) (l : list (option A)) (xs : list A) :
  all_some (o :: l) = Some xs ->
  exists x r, o = Some x /\ all_some l = Some r /\ xs = x :: r.
Proof.
  simpl. destruct o as [x|]; [|discriminate].
  destruct (all_some l) as [r|]; [|discriminate].
  intros H. injection H as <-. now exists x, r.
Qed.

Lemma enumerate_from_fst {A} (start : nat) (l : list A) :
  map fst (enumerate_from start l) = seq start (length l).
Proof.
  revert start; induction l as [|x l IH]; intros start; simpl;
    [reflexivity | now rewrite IH].
Qed.

Section TableOfContents.

Variable env : Env.

Lemma link_section (v : json) (title : string) :
  section_view v = Some title ->
  link env v = Ok ("[" ++ title ++ "](#" ++ TocSpec.anchor title ++ ")").
Proof.
  unfold section_view, link, Py.getitem. destruct v; try discriminate.
  destruct (Py.assoc "title" d) as [[]|]; try discriminate.
  intros H. injection H as ->. reflexivity.
Qed.

Lemma module_view_inv (v : json) (m : ModuleOutline) :
  module_view v = Some m ->
  exists d, v = VDict d
    /\ Py.assoc "title" d = Some (VStr (module_title m))
    /\ ((Py.assoc "sections" d = None /\ section_titles m = [])
        \/ exists l, Py.assoc "sections" d = Some (VList l)
             /\ all_some (map section_view l) = Some (section_titles m)).
Proof.
  unfold module_view. destruct v; try discriminate.
  destruct (Py.assoc "title" d) as [[]|] eqn:Ht; try discriminate.
  destruct (Py.assoc "sections" d) as [[]|] eqn:Hs; try discriminate.
  - destruct (all_some (map section_view l)) as [titles|] eqn:Hl;
      [|discriminate].
    intros H. injection H as <-. exists d. simpl. eauto 6.
  - intros H. injection H as <-. exists d. simpl. auto.
Qed.

Lemma link_module (v : json) (m : ModuleOutline) :
  module_view v = Some m ->
  link env v = Ok ("[" ++ module_title m ++ "](#"
                   ++ TocSpec.anchor (module_title m) ++ ")").
Proof.
  intros H. destruct (module_view_inv v m H) as [d [-> [Ht _]]].
  unfold link, Py.getitem. rewrite Ht. reflexivity.
Qed.

Lemma section_entries (i : nat) (l : list json) :
  forall (titles : list string) (j : nat) (toc : list string),
    all_some (map section_view l) = Some titles ->
    foldR (enumerate_from j l) toc
      (fun '(j, section) toc =>
         (entry <- link env section ;;
          let section_entry :=
            "   " ++ string_of_nat i ++ "." ++ string_of_nat j ++ ". "
            ++ entry in
          Ok (toc ++ [section_entry])%list)%R)
    = Ok (toc ++ map (fun '(j, title) => TocSpec.section_line i j title)
                     (enumerate_from j titles))%list.
Proof.
  induction l as [|v l IH]; intros titles j toc H.
  - injection H as <-. simpl. now rewrite app_nil_r.
  - apply all_some_cons in H. destruct H as [t [r [Hv [Hl ->]]]].
    simpl. rewrite (link_section v t Hv). simpl.
    rewrite (IH r (S j) _ Hl), <- app_assoc. reflexivity.
Qed.

Lemma module_entries (l : list json) :
  forall (outline : list ModuleOutline) (i : nat) (toc : list string),
    all_some (map module_view l) = Some outline ->
    foldR (enumerate_from i l) toc
      (fun '(i, module) toc =>
         (entry <- link env module ;;
          let module_entry := string_of_nat i ++ ". " ++ entry in
          let toc := (toc ++ [module_entry])%list in
          has_sections <- Py.contains_key "sections" module ;;
          if has_sections then
            sections <- Py.getitem module "sections" ;;
            section_items <- Py.iter sections ;;
            foldR (enumerate_from 1 section_items) toc
              (fun '(j, section) toc =>
                 entry <- link env section ;;
                 let section_entry :=
                   "   " ++ string_of_nat i ++ "." ++ string_of_nat j ++ ". "
                   ++ entry in
                 Ok (toc ++ [section_entry])%list)
          else Ok toc)%R)
    = Ok (toc ++ concat (map TocSpec.block (enumerate_from i outline)))%list.
Proof.
  induction l as [|v l IH]; intros outline i toc H.
  - injection H as <-. simpl. now rewrite app_nil_r.
  - apply all_some_cons in H. destruct H as [m [r [Hv [Hl ->]]]].
    cbn [enumerate_from foldR bindR].
    rewrite (link_module v m Hv). cbn [bindR].
    destruct (module_view_inv v m Hv) as [d [-> [Ht Hs]]].
    destruct Hs as [[Hs Hnil]|[secs [Hs Hsecs]]].
    + unfold Py.contains_key. rewrite Hs. cbn [bindR].
      rewrite (IH r (S i) _ Hl). cbn [map concat TocSpec.block].
      rewrite Hnil. cbn [enumerate_from map].
      rewrite <- app_assoc. reflexivity.
    + unfold Py.contains_key, Py.getitem. rewrite Hs. cbn [bindR Py.iter].
      rewrite (section_entries i secs _ 1 _ Hsecs). cbn [bindR].
      rewrite (IH r (S i) _ Hl). cbn [map concat TocSpec.block].
      rewrite <- !app_assoc. reflexivity.
Qed.

End TableOfContents.

(** C7. For every list of modules of the data model (objects with a string
    title and an optional array of sections with string titles),
    [generate_table_of_contents] returns the newline-joined entries of the
    specification: for the [i]-th module (from 1, in outline order) one
    entry [i. [title](#anchor)], directly followed by one entry
    [   i.j. [title](#anchor)] for its [j]-th section (from 1, in section
    order), where the anchor is the title lowercased with spaces replaced
    by hyphens; the module numbers are 1..N. *)
Theorem generate_table_of_contents_entries
    (env : Env) (modules : json) (outline : list ModuleOutline) :
  modules_view modules = Some outline ->
  generate_table_of_contents env modules
  = Ok (join nl (TocSpec.toc_lines outline))
  /\ map fst (enumerate_from 1 outline) = seq 1 (length outline)
  /\ forall title, TocSpec.anchor title = replace " " "-" (lower title).
Proof.
  intros H. split; [|split].
  - unfold modules_view in H. destruct modules; try discriminate.
    unfold generate_table_of_contents.
    change (Py.iter (VList l)) with (Ok l). unfold bindR at 1.
    pose proof (module_entries env l outline 1 [] H) as E.
    cbv zeta in E. cbv zeta. rewrite E. reflexivity.
  - apply enumerate_from_fst.
  - reflexivity.
Qed.

(** ** Effects of the generator *)

Create HintDb quiet.

Lemma quiet_ret {A} (a : A) : quiet (ret a).
Proof.
  intros w r w' H. injection H as <- <-. exists []. rewrite app_nil_r. auto.
Qed.

Lemma quiet_raise {A} (e : exn) : quiet (@raise A e).
Proof.
  intros w r w' H. injection H as <- <-. exists []. rewrite app_nil_r. auto.
Qed.

Lemma quiet_lift {A} (x : result A) : quiet (lift x).
Proof.
  intros w r w' H. injection H as <- <-. exists []. rewrite app_nil_r. auto.
Qed.

Lemma quiet_bind {A B} (c : M A) (k : A -> M B) :
  quiet c -> (forall a, quiet (k a)) -> quiet (bindM c k).
Proof.
  intros Hc Hk w r w' H. unfold bindM in H.
  destruct (c w) as [[a|e] w1] eqn:E.
  - destruct (Hc _ _ _ E) as [evs1 [T1 [F1 [G1 A1]]]].
    destruct (Hk a _ _ _ H) as [evs2 [T2 [F2 [G2 A2]]]].
    exists (evs1 ++ evs2)%list. rewrite T2, T1, F2, F1, app_assoc.
    repeat split; [now apply Forall_app|].
    destruct A1 as [A1|A1]; [|discriminate].
    destruct A2 as [A2|A2]; [left; now apply Forall_app | now right].
  - injection H as <- <-.
    destruct (Hc _ _ _ E) as [evs1 [T1 [F1 [G1 A1]]]].
    exists evs1. split; [exact T1|split; [exact F1|split; [exact G1|]]].
    destruct A1 as [A1|A1]; [now left|right; congruence].
Qed.

Lemma quiet_generating (title : json) : quiet (logger_info (LogGenerating title)).
Proof.
  intros w r w' H. injection H as <- <-.
  exists [EvLog INFO (LogGenerating title)]. simpl.
  repeat split; [repeat constructor|left; repeat constructor; intros []].
Qed.

(** The handler of [generate_course_content] logs and raises again. *)
Lemma quiet_reraise {A} (c : M A) :
  quiet c ->
  quiet (try_except c
           (fun e => (logger_error (LogErrorGenerating e) ;; raise e)%M)).
Proof.
  intros Hc w r w' H. unfold try_except in H.
  destruct (c w) as [[a|e] w1] eqn:E.
  - injection H as <- <-. exact (Hc _ _ _ E).
  - injection H as <- <-.
    destruct (Hc _ _ _ E) as [evs1 [T1 [F1 [G1 A1]]]].
    exists (evs1 ++ [EvLog ERROR (LogErrorGenerating e)])%list. simpl.
    rewrite T1, app_assoc. repeat split; [exact F1| |].
    + apply Forall_app. split; [exact G1|repeat constructor].
    + destruct A1 as [A1|A1]; [left|now right].
      apply Forall_app. split; [exact A1|repeat constructor; intros []].
Qed.

Lemma quiet_for_each {A S} (items : list A) (body : A -> S -> M S) :
  (forall x acc, quiet (body x acc)) ->
  forall acc, quiet (for_each items acc body).
Proof.
  intros Hb. induction items as [|x r IH]; intros acc; simpl.
  - apply quiet_ret.
  - apply quiet_bind; [apply Hb|intros acc'; apply IH].
Qed.

#[export] Hint Resolve quiet_ret quiet_raise quiet_lift quiet_generating
  : quiet.

Section GeneratorEffects.

Variable env : Env.

Lemma quiet_ChatOpenAI : quiet (ChatOpenAI env).
Proof.
  intros w r w' H. injection H as <- <-.
  exists [EvChatOpenAI (ChatOpenAI_ok env (clock w))]. simpl.
  repeat split; [repeat constructor|left; repeat constructor; intros []].
Qed.

Lemma quiet_chain_run (p : prompt) (title : json) (context : string) :
  quiet (chain_run env p title context).
Proof.
  intros w r w' H. injection H as <- <-.
  exists [EvChainRun p title context (chain_answer env (clock w))]. simpl.
  repeat split; [repeat constructor|].
  destruct (chain_answer env (clock w)); [left|now right].
  repeat constructor. intros [].
Qed.

Hint Resolve quiet_ChatOpenAI quiet_chain_run : quiet.

Ltac quiet_steps :=
  repeat first
    [ apply quiet_bind; [|intros ?]
    | solve [auto with quiet] ].

Lemma quiet_generate_course_description (course_data : json) :
  quiet (generate_course_description env course_data).
Proof. unfold generate_course_description. quiet_steps. Qed.

Lemma quiet_generate_module_content (module : json) (is_software : bool) :
  quiet (generate_module_content env module is_software).
Proof.
  unfold generate_module_content, generate_software_module,
    generate_standard_module.
  destruct is_software; quiet_steps.
Qed.

Hint Resolve quiet_generate_course_description
  quiet_generate_module_content : quiet.

Lemma quiet_generate_course_content (course_data : json) :
  quiet (generate_course_content env course_data).
Proof.
  unfold generate_course_content. apply quiet_reraise. quiet_steps.
  apply quiet_for_each. intros module acc. quiet_steps.
Qed.

End GeneratorEffects.

(** ** Inversion of successful runs *)

Lemma bindM_ok_inv {A B} (c : M A) (k : A -> M B) (w w' : World) (b : B) :
  bindM c k w = (Ok b, w') ->
  exists a w1, c w = (Ok a, w1) /\ k a w1 = (Ok b, w').
Proof.
  unfold bindM. destruct (c w) as [[a|e] w1]; [|discriminate].
  intros H. now exists a, w1.
Qed.

Lemma bindM_lift_ok_inv {A B} (r : result A) (k : A -> M B)
    (w w' : World) (b : B) :
  bindM (lift r) k w = (Ok b, w') ->
  exists a, r = Ok a /\ k a w = (Ok b, w').
Proof.
  unfold bindM, lift. destruct r as [a|e]; [|discriminate].
  intros H. now exists a.
Qed.

Ltac ok_inv H :=
  repeat match type of H with
  | bindM (lift _) _ _ = (Ok _, _) =>
      apply bindM_lift_ok_inv in H;
      let a := fresh "x" in let E := fresh "E" in
      destruct H as [a [E H]]
  | bindM _ _ _ = (Ok _, _) =>
      apply bindM_ok_inv in H;
      let a := fresh "x" in let w := fresh "w" in let E := fresh "E" in
      destruct H as [a [w [E H]]]
  end.

(** The variant determination of [generate_course_content] never returns:
    whatever the category, [is_software_course] is handed a boolean (or
    the category is not a string) and [.lower()] raises. *)
Lemma is_software_course_bool (b : bool) :
  is_software_course (VBool b) = Raise AttributeError.
Proof. reflexivity. Qed.

Lemma variant_determination_raises (course_data : json) :
  (flag <- software_or_programming course_data ;; is_software_course flag)%R
  = Raise AttributeError.
Proof.
  unfold software_or_programming, Py.get.
  destruct course_data; try reflexivity.
  assert (L : forall v : json,
             (lowered <- Py.lower v ;;
              if contains "software" lowered then Ok (VBool true)
              else
                category' <- Ok v ;;
                lowered' <- Py.lower category' ;;
                Ok (VBool (contains "programming" lowered')))%R
             = Raise AttributeError
             \/ exists b,
               (lowered <- Py.lower v ;;
                if contains "software" lowered then Ok (VBool true)
                else
                  category' <- Ok v ;;
                  lowered' <- Py.lower category' ;;
                  Ok (VBool (contains "programming" lowered')))%R
               = Ok (VBool b)).
  { intros v. destruct v; try (left; reflexivity). right. simpl.
    destruct (contains "software" (lower s)); eauto. }
  destruct (Py.assoc "category" d) as [v|].
  - cbn [bindR]. destruct (L v) as [E|[b E]].
    + cbn [bindR] in E. rewrite E. reflexivity.
    + cbn [bindR] in E. rewrite E. reflexivity.
  - cbn [bindR]. destruct (L (VStr EmptyString)) as [E|[b E]].
    + cbn [bindR] in E. rewrite E. reflexivity.
    + cbn [bindR] in E. rewrite E. reflexivity.
Qed.

Lemma for_each_raising {A S} (body : A -> S -> M S) (e : exn) :
  (forall x acc w, body x acc w = (Raise e, w)) ->
  forall items acc w r w',
    for_each items acc body w = (Ok r, w') -> items = [].
Proof.
  intros Hb items acc w r w' H. destruct items as [|x items];
    [reflexivity|].
  simpl in H. unfold bindM in H. rewrite Hb in H. discriminate.
Qed.

Section GeneratorRuns.

Variable env : Env.

(** A successful run of [generate_course_content] had a title, and modules
    that iterate to nothing. *)
Lemma generate_course_content_ok_inv
    (course_data : json) (w w' : World) (content : string) :
  generate_course_content env course_data w = (Ok content, w') ->
  exists title modules,
    Py.getitem course_data "title" = Ok title
    /\ Py.getitem course_data "modules" = Ok modules
    /\ Py.iter modules = Ok [].
Proof.
  unfold generate_course_content, try_except.
  match goal with
  | |- context [match ?body w with _ => _ end] =>
      destruct (body w) as [[c|e] w1] eqn:Hb
  end; [|intros H; discriminate].
  intros _. ok_inv Hb.
  repeat match goal with
  | E1 : ?a = Ok ?x, E2 : ?a = Ok ?y |- _ =>
      assert (x = y) by congruence; subst y; clear E2
  end.
  match goal with
  | Et : Py.getitem course_data "title" = Ok ?t,
    Em : Py.getitem course_data "modules" = Ok ?m,
    Ei : Py.iter ?m = Ok ?items,
    Ef : for_each ?items _ _ _ = _ |- _ =>
      exists t, m; split; [exact Et|split; [exact Em|]];
      rewrite Ei; f_equal;
      eapply (for_each_raising _ AttributeError); [|exact Ef]
  end.
  intros module acc world. unfold bindM, lift.
  now rewrite variant_determination_raises.
Qed.

End GeneratorRuns.

(** ** The message cycle *)

Lemma generation_event_not_commit (e : event) :
  generation_event e -> is_commit e = false.
Proof. destruct e; simpl; [reflexivity..|contradiction]. Qed.

Lemma generation_event_not_write (e : event) :
  generation_event e -> is_write e = false.
Proof. destruct e; simpl; try reflexivity; contradiction. Qed.

Lemma storage_event_not_commit (e : event) :
  storage_event e -> is_commit e = false.
Proof. destruct e; simpl; [reflexivity..|contradiction]. Qed.

Lemma storage_event_answered (e : event) : storage_event e -> answered e.
Proof. destruct e; simpl; try contradiction; intros _ []. Qed.

Section MessageCycle.

Variable env : Env.

Lemma save_course_content_returns (title : json) (content : string)
    (w : World) :
  exists w' evs saved,
    save_course_content env title content w = (Ok tt, w')
    /\ trace w' = (trace w ++ evs ++ [saved])%list
    /\ persistence_return saved = true
    /\ Forall storage_event (evs ++ [saved]).
Proof.
  unfold save_course_content, try_except, bindM, os_makedirs, open_write,
    logger_info, logger_error, emit, lift, external.
  destruct (makedirs_ok env (clock w)); cbn [clock trace files].
  - destruct (Py.lower title) as [lowered|e]; cbn [clock trace files].
    + destruct (write_ok env (S (clock w))).
      * eexists _, [_; _], _. split; [reflexivity|]. cbn [trace].
        rewrite <- !app_assoc. split; [reflexivity|].
        split; [reflexivity|repeat constructor].
      * eexists _, [_; _], _. split; [reflexivity|]. cbn [trace].
        rewrite <- !app_assoc. split; [reflexivity|].
        split; [reflexivity|repeat constructor].
    + eexists _, [_], _. split; [reflexivity|]. cbn [trace].
      rewrite <- !app_assoc. split; [reflexivity|].
      split; [reflexivity|repeat constructor].
  - eexists _, [_], _. split; [reflexivity|]. cbn [trace].
    rewrite <- !app_assoc. split; [reflexivity|].
    split; [reflexivity|repeat constructor].
Qed.

Lemma process_message_run (message : ConsumerRecord) (w : World) :
  exists w' body det outcome,
    process_message env message w = (Ok tt, w')
    /\ trace w'
       = (trace w ++ EvLog INFO (LogReceived message) :: body ++ [det])%list
    /\ determination det = Some outcome
    /\ outcome_shape env message w w' body det outcome.
Proof.
  unfold process_message, try_except.
  unfold bindM at 1.
  change (logger_info (LogReceived message) w)
    with (@Ok unit tt, received message w).
  cbv iota beta. unfold bindM at 1, lift at 1.
  destruct (Py.all_in ["title"; "modules"] (value message))
    as [valid|e] eqn:Hv.
  - destruct valid; cbn [negb].
    + unfold bindM at 1.
      destruct (generate_course_content env (value message)
                  (received message w)) as [[content|e] w1] eqn:Hg.
      * destruct (quiet_generate_course_content env _ _ _ _ Hg)
          as [gen [T1 [F1 [G1 A1]]]].
        destruct A1 as [A1|A1]; [|discriminate].
        unfold bindM at 1, lift at 1.
        destruct (Py.getitem (value message) "title") as [title|e] eqn:Ht.
        -- unfold bindM at 1.
           destruct (save_course_content_returns title content w1)
             as [w2 [saving [saved [Hs [T2 [P2 S2]]]]]].
           rewrite Hs. cbv iota beta.
           unfold bindM at 1, lift at 1, logger_info, emit.
           eexists _, (gen ++ saving ++ [saved])%list,
             (EvLog INFO (LogProcessed title)), Success.
           split; [reflexivity|]. split.
           { cbn [trace]. rewrite T2, T1. unfold received. cbn [trace].
             rewrite <- !app_assoc. reflexivity. }
           split; [reflexivity|].
           exists gen, saving, saved, content, w1. auto 8.
        -- unfold logger_error, emit.
           eexists _, gen, (EvLog ERROR (LogErrorProcessing e)), Failed.
           split; [reflexivity|]. split.
           { cbn [trace]. rewrite T1. unfold received. cbn [trace].
             rewrite <- !app_assoc. reflexivity. }
           split; [reflexivity|]. cbn [files outcome_shape]. auto.
      * destruct (quiet_generate_course_content env _ _ _ _ Hg)
          as [gen [T1 [F1 [G1 A1]]]].
        unfold logger_error, emit.
        eexists _, gen, (EvLog ERROR (LogErrorProcessing e)), Failed.
        split; [reflexivity|]. split.
        { cbn [trace]. rewrite T1. unfold received. cbn [trace].
          rewrite <- !app_assoc. reflexivity. }
        split; [reflexivity|]. cbn [files outcome_shape].
        split; [exact G1|]. split; [exact F1|].
        destruct A1 as [A1|A1]; [now left|right; congruence].
    + unfold logger_error, emit.
      eexists _, [], (EvLog ERROR (LogInvalidFormat (value message))),
        Skipped.
      split; [reflexivity|]. split.
      { cbn [trace received]. rewrite <- !app_assoc. reflexivity. }
      split; [reflexivity|]. cbn. auto.
  - unfold logger_error, emit.
    eexists _, [], (EvLog ERROR (LogErrorProcessing e)), Failed.
    split; [reflexivity|]. split.
    { cbn [trace received]. rewrite <- !app_assoc. reflexivity. }
    split; [reflexivity|]. cbn. auto.
Qed.

Lemma consumer_commit_run (message : ConsumerRecord) (w : World) :
  consumer_commit message w
  = (Ok tt, {| clock := clock w; files := files w;
               trace := (trace w ++ [EvCommit (offset message)])%list |}).
Proof. reflexivity. Qed.

Lemma outcome_shape_no_commit (message : ConsumerRecord) (w w' : World)
    (body : list event) (det : event) (outcome : ProcessingOutcome) :
  outcome_shape env message w w' body det outcome ->
  Forall (fun e => is_commit e = false) body.
Proof.
  destruct outcome; cbn [outcome_shape].
  - intros [gen [saving [saved [content [w1 [_ [-> [G [_ [S _]]]]]]]]]].
    apply Forall_app. split.
    + eapply Forall_impl; [|exact G]. apply generation_event_not_commit.
    + eapply Forall_impl; [|exact S]. apply storage_event_not_commit.
  - intros [-> _]. constructor.
  - intros [G _]. eapply Forall_impl; [|exact G].
    apply generation_event_not_commit.
Qed.

Lemma process_message_cycle (message : ConsumerRecord) (w : World) :
  exists w' events,
    bindM (process_message env message)
      (fun _ => consumer_commit message) w = (Ok tt, w')
    /\ trace w' = (trace w ++ events)%list
    /\ files w' = files (snd (process_message env message w))
    /\ cycle message events.
Proof.
  destruct (process_message_run message w)
    as [w1 [body [det [outcome [Hp [T [D Sh]]]]]]].
  unfold bindM. rewrite Hp, consumer_commit_run.
  eexists _, _. split; [reflexivity|]. cbn [trace files snd].
  split; [|split; [reflexivity|]].
  - rewrite T, <- app_assoc. cbn [app]. rewrite <- app_assoc.
    reflexivity.
  - apply (cycle_intro message body det outcome).
    + exact (outcome_shape_no_commit _ _ _ _ _ _ Sh).
    + exact D.
    + intros ->. cbn [outcome_shape] in Sh.
      destruct Sh as [gen [saving [saved [_ [_ [_ [-> [_ [_ [_ P]]]]]]]]]].
      exists (gen ++ saving)%list, saved. now rewrite app_assoc.
Qed.

(** One turn of the loop, then the rest of it. *)
Lemma main_loop_step (message : ConsumerRecord)
    (rest : list ConsumerRecord) (w w1 : World) :
  bindM (process_message env message)
    (fun _ => consumer_commit message) w = (Ok tt, w1) ->
  main_loop env (message :: rest) w = main_loop env rest w1.
Proof.
  intros Hc. cbn [main_loop]. unfold bindM in *.
  destruct (process_message env message w) as [[[]|e] w0]; [|discriminate].
  now rewrite Hc.
Qed.

Lemma main_loop_returns (delivered : list ConsumerRecord) :
  forall w, fst (main_loop env delivered w) = Ok tt.
Proof.
  induction delivered as [|message rest IH]; intros w; [reflexivity|].
  destruct (process_message_cycle message w) as [w1 [events [Hc _]]].
  rewrite (main_loop_step message rest w w1 Hc). apply IH.
Qed.

End MessageCycle.

(** C1. Whatever the messages and the behaviour of the outside world, the
    loop of [main] returns, and its trace is one cycle per message in
    delivery order: the message is received, processed without any commit,
    its outcome (Success, Skipped or Failed) is determined, on Success
    right after [save_course_content] has returned, and the commit of the
    message's offset is the last event of the cycle. *)
Theorem main_loop_commits_after_processing
    (env : Env) (delivered : list ConsumerRecord) (w : World) :
  exists w' cycles,
    main_loop env delivered w = (Ok tt, w')
    /\ trace w' = (trace w ++ concat cycles)%list
    /\ Forall2 cycle delivered cycles.
Proof.
  revert w. induction delivered as [|message rest IH]; intros w.
  - exists w, []. cbn [main_loop concat]. rewrite app_nil_r.
    split; [reflexivity|]. split; [reflexivity|constructor].
  - destruct (process_message_cycle env message w)
      as [w1 [events [Hc [T1 [_ C1]]]]].
    destruct (IH w1) as [w2 [cycles [Hl [T2 C2]]]].
    exists w2, (events :: cycles). split; [|split].
    + rewrite (main_loop_step env message rest w w1 Hc). exact Hl.
    + rewrite T2, T1. cbn [concat]. now rewrite app_assoc.
    + constructor; [exact C1|exact C2].
Qed.

Lemma Forall_answered_no_failed (evs : list event) :
  Forall answered evs -> Exists failed_call evs -> False.
Proof.
  intros HF HE. apply Exists_exists in HE. destruct HE as [e [Hin Hf]].
  rewrite Forall_forall in HF. exact (HF e Hin Hf).
Qed.

Lemma determination_is_log (e : event) (outcome : ProcessingOutcome) :
  determination e = Some outcome ->
  is_write e = false /\ is_commit e = false /\ ~ failed_call e.
Proof. destruct e; simpl; try discriminate. intros _. repeat split. intros []. Qed.

(** C3. When a generation call fails while a message is processed,
    [process_message] still returns: no file is written (no write is even
    attempted and the files are unchanged), the service's exception is
    logged as the outcome of the message, the offset is committed and the
    loop goes on with the remaining messages, returning in the end. *)
Theorem failed_generation_is_dropped
    (env : Env) (message : ConsumerRecord) (rest : list ConsumerRecord)
    (w : World) (events : list event) :
  trace (snd (process_message env message w)) = (trace w ++ events)%list ->
  Exists failed_call events ->
  let w' := snd (process_message env message w) in
  let committed :=
    {| clock := clock w'; files := files w';
       trace := (trace w' ++ [EvCommit (offset message)])%list |} in
  fst (process_message env message w) = Ok tt
  /\ files w' = files w
  /\ Forall (fun e => is_write e = false) events
  /\ In (EvLog ERROR (LogErrorProcessing ServiceError)) events
  /\ main_loop env (message :: rest) w = main_loop env rest committed
  /\ fst (main_loop env (message :: rest) w) = Ok tt.
Proof.
  intros T HE w' committed. subst w' committed.
  destruct (process_message_run env message w)
    as [w1 [body [det [outcome [Hp [T1 [D Sh]]]]]]].
  rewrite Hp in *. cbn [fst snd] in *.
  rewrite T1 in T. apply app_inv_head in T. subst events.
  destruct (determination_is_log _ _ D) as [Dw [Dc Df]].
  assert (HB : Exists failed_call body).
  { inversion HE as [? ? H|? ? H]; subst; [destruct H|].
    apply Exists_app in H. destruct H as [H|H]; [exact H|].
    inversion H as [? ? H'|? ? H']; subst; [contradiction|inversion H']. }
  assert (Hloop : main_loop env (message :: rest) w
                  = main_loop env rest
                      {| clock := clock w1; files := files w1;
                         trace := (trace w1
                                   ++ [EvCommit (offset message)])%list |}).
  { cbn [main_loop]. unfold bindM. rewrite Hp, consumer_commit_run.
    reflexivity. }
  destruct outcome; cbn [outcome_shape] in Sh.
  - exfalso.
    destruct Sh as [gen [saving [saved [content [w2 [_ [-> [_ [A [S _]]]]]]]]]].
    apply (Forall_answered_no_failed (gen ++ saving ++ [saved])); [|exact HB].
    apply Forall_app. split; [exact A|].
    eapply Forall_impl; [|exact S]. apply storage_event_answered.
  - destruct Sh as [-> _]. inversion HB.
  - destruct Sh as [G [F A]].
    destruct A as [A | ->];
      [exfalso; exact (Forall_answered_no_failed _ A HB)|].
    split; [reflexivity|]. split; [exact F|]. split; [|split; [|split]].
    + constructor; [reflexivity|]. apply Forall_app. split.
      * eapply Forall_impl; [|exact G]. apply generation_event_not_write.
      * repeat constructor.
    + right. apply in_or_app. right. now left.
    + exact Hloop.
    + rewrite Hloop. apply main_loop_returns.
Qed.

Lemma generate_course_content_leaves_event
    (env : Env) (course_data : json) (w : World) :
  exists e evs,
    trace (snd (generate_course_content env course_data w))
    = (trace w ++ e :: evs)%list
    /\ generation_event e.
Proof.
  unfold generate_course_content, try_except.
  unfold bindM at 1, lift at 1.
  destruct (Py.getitem course_data "title") as [title|e].
  - unfold bindM at 1.
    change (logger_info (LogGenerating title) w)
      with (@Ok unit tt,
            {| clock := clock w; files := files w;
               trace := (trace w ++ [EvLog INFO (LogGenerating title)])%list |}).
    cbv iota beta.
    match goal with
    | |- context [match ?rest ?w0 with _ => _ end] =>
        assert (Q : quiet (try_except rest
                     (fun e => (logger_error (LogErrorGenerating e) ;;
                                raise e)%M)))
    end.
    { apply quiet_reraise.
      repeat first [ apply quiet_ChatOpenAI
                   | apply quiet_generate_course_description
                   | apply quiet_generate_module_content
                   | apply quiet_for_each; intros ? ?
                   | solve [auto with quiet]
                   | apply quiet_bind; [|intros ?] ]. }
    match type of Q with
    | quiet ?c =>
        match goal with
        | |- context [match ?rest ?w0 with _ => _ end] =>
            destruct (c w0) as [r w'] eqn:E;
            destruct (Q _ _ _ E) as [evs [T _]];
            unfold try_except in E; rewrite E
        end
    end.
    exists (EvLog INFO (LogGenerating title)), evs. cbn [snd].
    rewrite T. cbn [trace]. rewrite <- app_assoc. now split.
  - exists (EvLog ERROR (LogErrorGenerating e)), []. now split.
Qed.

(** C4, as amended. A message whose payload is an object without [title]
    or without [modules], or more generally any payload on which the
    membership test [all(key in course_data ...)] is false, is skipped:
    [process_message] only logs the message and the invalid format, no
    external call is made (the clock stands still), no generation or
    storage event occurs although every call of [generate_course_content]
    and of [save_course_content] leaves one, the files are unchanged, and
    the loop commits the offset and goes on. *)
Theorem incomplete_message_is_skipped
    (env : Env) (message : ConsumerRecord) (rest : list ConsumerRecord)
    (w : World) :
  (exists d, value message = VDict d
             /\ (Py.assoc "title" d = None \/ Py.assoc "modules" d = None))
  \/ Py.all_in ["title"; "modules"] (value message) = Ok false ->
  let skipped :=
    [EvLog INFO (LogReceived message);
     EvLog ERROR (LogInvalidFormat (value message))] in
  process_message env message w
  = (Ok tt, {| clock := clock w; files := files w;
               trace := (trace w ++ skipped)%list |})
  /\ main_loop env (message :: rest) w
     = main_loop env rest
         {| clock := clock w; files := files w;
            trace := (trace w ++ skipped
                      ++ [EvCommit (offset message)])%list |}
  /\ Forall (fun e => ~ generation_event e /\ ~ storage_event e) skipped
  /\ (forall course_data w0, exists e evs,
        trace (snd (generate_course_content env course_data w0))
        = (trace w0 ++ e :: evs)%list /\ generation_event e)
  /\ (forall title content w0, exists w1 evs e,
        save_course_content env title content w0 = (Ok tt, w1)
        /\ trace w1 = (trace w0 ++ evs ++ [e])%list /\ storage_event e).
Proof.
  intros Hmissing skipped.
  assert (Hall : Py.all_in ["title"; "modules"] (value message) = Ok false).
  { destruct Hmissing as [[d [Hv Hmiss]]|H]; [|exact H].
    rewrite Hv. cbn [Py.all_in Py.contains_key bindR].
    destruct (Py.assoc "title" d); [|reflexivity].
    destruct Hmiss as [? | ->]; [discriminate|reflexivity]. }
  assert (Hp : process_message env message w
               = (Ok tt, {| clock := clock w; files := files w;
                            trace := (trace w ++ skipped)%list |})).
  { unfold process_message, try_except, bindM, lift, logger_info,
      logger_error, emit. rewrite Hall. cbn [negb trace clock files].
    rewrite <- app_assoc. reflexivity. }
  split; [exact Hp|]. split; [|split; [|split]].
  - cbn [main_loop]. unfold bindM. rewrite Hp, consumer_commit_run.
    cbn [clock files trace]. now rewrite <- app_assoc.
  - subst skipped. repeat constructor; simpl; tauto.
  - apply generate_course_content_leaves_event.
  - intros title content w0.
    destruct (save_course_content_returns env title content w0)
      as [w1 [evs [e [H [T [_ S]]]]]].
    exists w1, evs, e. split; [exact H|]. split; [exact T|].
    apply Forall_app in S. destruct S as [_ S]. now inversion S.
Qed.

(** C4, counterexample: a payload that is not an object has neither field,
    yet it is not skipped. For the number 5 the membership test itself
    raises and the message is Failed; for the array of the two texts
    "title" and "modules" the test passes, [generate_course_content] is
    invoked and leaves its error record, and the message is Failed. *)
Lemma payloads_without_fields_are_not_skipped :
  let env := Samples.answering "text" in
  let number := {| offset := 1; value := VInt 5 |} in
  let array :=
    {| offset := 2; value := VList [VStr "title"; VStr "modules"] |} in
  Py.getitem (value number) "title" = Raise TypeError
  /\ Py.getitem (value array) "title" = Raise TypeError
  /\ trace (snd (process_message env number Samples.start))
     = [EvLog INFO (LogReceived number);
        EvLog ERROR (LogErrorProcessing TypeError)]
  /\ trace (snd (process_message env array Samples.start))
     = [EvLog INFO (LogReceived array);
        EvLog ERROR (LogErrorGenerating TypeError);
        EvLog ERROR (LogErrorProcessing TypeError)]
  /\ determination (EvLog ERROR (LogErrorProcessing TypeError)) = Some Failed
  /\ generation_event (EvLog ERROR (LogErrorGenerating TypeError)).
Proof. repeat split. Qed.

(** C2. When the modules of an outline iterate to at least one module,
    [generate_course_content] raises in every world: the variant
    determination hands [is_software_course] a boolean, on which [.lower()]
    raises. [process_message] then writes nothing and never reports
    Success. *)
Theorem course_with_modules_is_never_generated
    (env : Env) (course_data modules first : json) (others : list json) :
  Py.getitem course_data "modules" = Ok modules ->
  Py.iter modules = Ok (first :: others) ->
  (forall w, exists e w',
      generate_course_content env course_data w = (Raise e, w'))
  /\ (forall b, is_software_course (VBool b) = Raise AttributeError)
  /\ (flag <- software_or_programming course_data ;;
      is_software_course flag)%R = Raise AttributeError
  /\ (forall message w events,
        value message = course_data ->
        trace (snd (process_message env message w))
        = (trace w ++ events)%list ->
        files (snd (process_message env message w)) = files w
        /\ Forall (fun e => is_write e = false
                            /\ determination e <> Some Success) events).
Proof.
  intros Hm Hi.
  assert (Hnever : forall w content w',
             generate_course_content env course_data w <> (Ok content, w')).
  { intros w content w' H.
    destruct (generate_course_content_ok_inv env _ _ _ _ H)
      as [title [modules' [_ [Hm' Hi']]]].
    congruence. }
  split; [|split; [|split]].
  - intros w.
    destruct (generate_course_content env course_data w) as [[content|e] w']
      eqn:E; [exfalso; exact (Hnever _ _ _ E)|now exists e, w'].
  - exact is_software_course_bool.
  - apply variant_determination_raises.
  - intros message w events Hv T.
    destruct (process_message_run env message w)
      as [w1 [body [det [outcome [Hp [T1 [D Sh]]]]]]].
    rewrite Hp in *. cbn [snd] in *.
    rewrite T1 in T. apply app_inv_head in T. subst events.
    destruct (determination_is_log _ _ D) as [Dw _].
    destruct outcome; cbn [outcome_shape] in Sh.
    + exfalso. destruct Sh as [gen [saving [saved [content [w2 [Hg _]]]]]].
      rewrite Hv in Hg. exact (Hnever _ _ _ Hg).
    + destruct Sh as [-> [F _]]. split; [exact F|].
      repeat constructor; simpl; try discriminate; congruence.
    + destruct Sh as [G [F _]]. split; [exact F|].
      constructor; [split; [reflexivity|discriminate]|].
      apply Forall_app. split.
      * eapply Forall_impl; [|exact G]. intros e He. split.
        -- now apply generation_event_not_write.
        -- destruct e as [[] []| | | | |]; simpl in *;
             try discriminate; contradiction.
      * repeat constructor; [exact Dw|congruence].
Qed.

(** ** Renderings *)

Lemma lstrip_spec (s : string) :
  exists l, s = l ++ lstrip s /\ all_space l = true
            /\ starts_with_space (lstrip s) = false.
Proof.
  induction s as [|c s [l [E [A S]]]]; simpl.
  - now exists EmptyString.
  - destruct (is_space c) eqn:Hc.
    + exists (String c l). simpl. rewrite Hc, A. now rewrite <- E.
    + exists EmptyString. simpl. now rewrite Hc.
Qed.

Lemma rstrip_spec (s : string) :
  exists r, s = rstrip s ++ r /\ all_space r = true
            /\ ends_with_space (rstrip s) = false.
Proof.
  induction s as [|c s [r [E [A S]]]]; simpl.
  - now exists EmptyString.
  - destruct (rstrip s) as [|c' s'] eqn:R.
    + simpl in E. subst r.
      destruct (is_space c) eqn:Hc.
      * exists (String c s). simpl. now rewrite Hc, A.
      * exists s. simpl. now rewrite Hc.
    + exists r. split; [|split; [exact A|exact S]].
      simpl. now rewrite E at 1.
Qed.

Lemma rstrip_head (s : string) :
  starts_with_space s = false -> starts_with_space (rstrip s) = false.
Proof.
  destruct s as [|c s]; simpl; [reflexivity|]. intros Hc.
  destruct (rstrip s); [rewrite Hc|]; simpl; exact Hc.
Qed.

Lemma strip_spec (s : string) :
  exists l r, s = l ++ strip s ++ r
              /\ all_space l = true /\ all_space r = true
              /\ starts_with_space (strip s) = false
              /\ ends_with_space (strip s) = false.
Proof.
  destruct (lstrip_spec s) as [l [El [Al Sl]]].
  destruct (rstrip_spec (lstrip s)) as [r [Er [Ar Sr]]].
  exists l, r. unfold strip. rewrite <- Er.
  repeat split; try assumption. now apply rstrip_head.
Qed.

Lemma mapR_section_titles (l : list json) :
  forall titles,
    all_some (map section_view l) = Some titles ->
    mapR (fun section => Py.getitem section "title") l
    = Ok (map VStr titles).
Proof.
  induction l as [|v l IH]; intros titles H.
  - injection H as <-. reflexivity.
  - apply all_some_cons in H. destruct H as [t [r [Hv [Hl ->]]]].
    simpl. rewrite (IH r Hl).
    unfold section_view in Hv. destruct v; try discriminate.
    unfold Py.getitem.
    destruct (Py.assoc "title" d) as [[]|]; try discriminate.
    now injection Hv as ->.
Qed.

Lemma section_titles_of_view (module : json) (m : ModuleOutline) :
  module_view module = Some m ->
  Py.getitem module "title" = Ok (VStr (module_title m))
  /\ section_titles_of module = Ok (map VStr (section_titles m)).
Proof.
  intros H. destruct (module_view_inv module m H) as [d [-> [Ht Hs]]].
  unfold section_titles_of, Py.getitem, Py.contains_key. rewrite Ht.
  split; [reflexivity|].
  destruct Hs as [[Hs ->]|[l [Hs Hl]]]; rewrite Hs; cbn [bindR Py.iter].
  - reflexivity.
  - now apply mapR_section_titles.
Qed.

Lemma join_strs (sep : string) (l : list string) :
  Py.join sep (map VStr l) = Ok (join sep l).
Proof.
  unfold Py.join.
  assert (E : mapR (fun v => match v with
                             | VStr s => Ok s
                             | _ => Raise TypeError
                             end) (map VStr l) = Ok l).
  { induction l as [|s l IH]; simpl; [reflexivity|now rewrite IH]. }
  now rewrite E.
Qed.

Lemma sections_argument_view (titles : list string) :
  sections_argument (map VStr titles) = Ok (sections_context titles).
Proof.
  destruct titles as [|t r]; [reflexivity|].
  change (sections_argument (map VStr (t :: r)))
    with (Py.join ", " (map VStr (t :: r))).
  apply join_strs.
Qed.

(** The modules of the data model are rendered as the composer renders
    their artifacts, and the course as the composer renders it. *)
Lemma generate_standard_module_view
    (env : Env) (module : json) (m : ModuleOutline) (w : World)
    (text : string) :
  module_view module = Some m ->
  chain_answer env (clock w) = Some text ->
  fst (generate_standard_module env module w)
  = Composer.render_module
      {| Composer.title := module_title m; Composer.body := text;
         Composer.codeExamples := None |}.
Proof.
  intros Hm Ha.
  destruct (section_titles_of_view module m Hm) as [Ht Hs].
  unfold generate_standard_module, bindM, lift, chain_run.
  rewrite Hs, Ht, sections_argument_view, Ha. reflexivity.
Qed.

Lemma generate_software_module_view
    (env : Env) (module : json) (m : ModuleOutline) (w : World)
    (text code : string) :
  module_view module = Some m ->
  chain_answer env (clock w) = Some text ->
  chain_answer env (S (clock w)) = Some code ->
  fst (generate_software_module env module w)
  = Composer.render_module
      {| Composer.title := module_title m; Composer.body := text;
         Composer.codeExamples := Some code |}.
Proof.
  intros Hm Ha Hc.
  destruct (section_titles_of_view module m Hm) as [Ht Hs].
  unfold generate_software_module, bindM, lift, chain_run.
  rewrite Hs, Ht, sections_argument_view, Ha. cbn [external clock].
  rewrite Hc. reflexivity.
Qed.

Lemma render_course_complete (env : Env) (a : Composer.CourseArtifact) :
  Composer.render_course a
  = (modules_content <- mapR Composer.render_module (Composer.modules a) ;;
     complete_course env (VStr (Composer.course_title a))
       (strip (Composer.description a)) (Composer.tableOfContents a)
       modules_content)%R.
Proof. reflexivity. Qed.

(** C8, as amended. The templates open and close with a line break, which
    the renderings keep: a standard module is rendered as a line break,
    [## title], a blank line, the trimmed body and a line break; a
    code-annotated module continues with a blank line, [### Code Examples],
    a blank line, the trimmed code examples and a line break; the course
    is rendered as a line break, [# title], a blank line, the description,
    a blank line, [## Table of Contents], the table, a blank line, the
    module renderings joined by a blank line, and a line break. The
    description, the body and the code examples are the service's answers
    trimmed by [strip], which removes exactly the leading and the trailing
    white space. *)
Theorem renderings_keep_template_line_breaks (env : Env) :
  (forall module m w body,
      module_view module = Some m ->
      chain_answer env (clock w) = Some body ->
      fst (generate_standard_module env module w)
      = Ok (nl ++ "## " ++ module_title m ++ nl ++ nl ++ strip body ++ nl))
  /\ (forall module m w body code,
        module_view module = Some m ->
        chain_answer env (clock w) = Some body ->
        chain_answer env (S (clock w)) = Some code ->
        fst (generate_software_module env module w)
        = Ok (nl ++ "## " ++ module_title m ++ nl ++ nl ++ strip body
              ++ nl ++ nl ++ "### Code Examples" ++ nl ++ nl
              ++ strip code ++ nl))
  /\ (forall title description toc modules_content,
        complete_course env (VStr title) description toc modules_content
        = Ok (nl ++ "# " ++ title ++ nl ++ nl ++ description ++ nl ++ nl
              ++ "## Table of Contents" ++ nl ++ toc ++ nl ++ nl
              ++ join (nl ++ nl) modules_content ++ nl))
  /\ (forall course_data w text description,
        chain_answer env (clock w) = Some text ->
        fst (generate_course_description env course_data w)
        = Ok description ->
        description = strip text)
  /\ (forall text, exists l r,
        text = l ++ strip text ++ r
        /\ all_space l = true /\ all_space r = true
        /\ starts_with_space (strip text) = false
        /\ ends_with_space (strip text) = false).
Proof.
  split; [|split; [|split; [|split]]].
  - intros module m w body Hm Ha.
    rewrite (generate_standard_module_view env module m w body Hm Ha).
    reflexivity.
  - intros module m w body code Hm Ha Hc.
    rewrite (generate_software_module_view env module m w body code
               Hm Ha Hc).
    reflexivity.
  - intros. reflexivity.
  - intros course_data w text description Ha.
    unfold generate_course_description, bindM, lift, chain_run.
    rewrite Ha.
    repeat match goal with
    | |- context [match ?r with Ok _ => _ | Raise _ => _ end] =>
        destruct r; cbn [fst]; try discriminate
    end.
    unfold ret. cbn [fst]. intros H. congruence.
  - apply strip_spec.
Qed.

(** C8, counterexample: for the module "Basics" and the answer " Hello ",
    the standard rendering is not ["## Basics\n\nHello"] and the
    code-annotated rendering is not
    ["## Basics\n\nHello\n\n### Code Examples\n\nHello"]: each starts and
    ends with the line breaks of its template. *)
Lemma standard_rendering_has_outer_line_breaks :
  fst (generate_standard_module (Samples.answering " Hello ")
         Samples.basics Samples.start)
  = Ok (nl ++ Worded.standard_module "Basics" "Hello" ++ nl)
  /\ fst (generate_standard_module (Samples.answering " Hello ")
            Samples.basics Samples.start)
     <> Ok (Worded.standard_module "Basics" (strip " Hello "))
  /\ fst (generate_software_module (Samples.answering " Hello ")
            Samples.basics Samples.start)
     = Ok (nl ++ Worded.annotated_module "Basics" "Hello" "Hello" ++ nl)
  /\ fst (generate_software_module (Samples.answering " Hello ")
            Samples.basics Samples.start)
     <> Ok (Worded.annotated_module "Basics" (strip " Hello ")
              (strip " Hello ")).
Proof.
  split; [reflexivity|]. split; [discriminate|].
  split; [reflexivity|discriminate].
Qed.

(** ** Persistence *)

Lemma sanitize_chars (title : string) :
  sanitize (lower title) = map_string safe_char title.
Proof.
  unfold sanitize. induction title as [|c title IH]; [reflexivity|].
  cbn [lower replace map_string]. f_equal; [|exact IH].
  destruct c as [[] [] [] [] [] [] [] []]; reflexivity.
Qed.

Lemma all_in_title_modules (course_data title modules : json) :
  Py.getitem course_data "title" = Ok title ->
  Py.getitem course_data "modules" = Ok modules ->
  Py.all_in ["title"; "modules"] course_data = Ok true.
Proof.
  unfold Py.getitem. destruct course_data; try discriminate.
  cbn [Py.all_in Py.contains_key bindR].
  destruct (Py.assoc "title" d); [|discriminate].
  destruct (Py.assoc "modules" d); [reflexivity|discriminate].
Qed.

(** C9, as amended. When a course titled by a string has been generated
    and the store accepts the directory and the write, the loop writes the
    generated document to
    [generated_courses/{name}.md], where [name] is the title lowercased
    with every space, slash and backslash replaced by an underscore; the
    file then holds the document, and the write precedes the report of
    success and the commit of the offset. *)
Theorem generated_course_is_saved_before_commit
    (env : Env) (message : ConsumerRecord) (w w1 : World)
    (title content : string) :
  Py.getitem (value message) "title" = Ok (VStr title) ->
  generate_course_content env (value message) (received message w)
  = (Ok content, w1) ->
  makedirs_ok env (clock w1) = true ->
  write_ok env (S (clock w1)) = true ->
  let filepath := "generated_courses/" ++ sanitize (lower title) ++ ".md" in
  sanitize (lower title) = map_string safe_char title
  /\ exists w2 before,
       main_loop env [message] w = (Ok tt, w2)
       /\ Py.assoc filepath (files w2) = Some content
       /\ trace w2
          = (trace w ++ before
             ++ [EvWrite filepath content true;
                 EvLog INFO (LogSaved filepath);
                 EvLog INFO (LogProcessed (VStr title));
                 EvCommit (offset message)])%list.
Proof.
  intros Ht Hg Hmk Hwr filepath. split; [apply sanitize_chars|].
  destruct (generate_course_content_ok_inv env _ _ _ _ Hg)
    as [title' [modules [Ht' [Hm _]]]].
  pose proof (all_in_title_modules _ _ _ Ht' Hm) as Hall.
  destruct (quiet_generate_course_content env _ _ _ _ Hg)
    as [gen [T1 _]].
  unfold received in Hg, T1. cbn [trace] in T1.
  eexists _, (EvLog INFO (LogReceived message) :: gen
              ++ [EvMakedirs "generated_courses" true])%list.
  split; [|split].
  - cbn [main_loop]. unfold bindM at 1.
    unfold process_message, try_except, bindM, lift, logger_info, emit.
    rewrite Hall. cbn [negb]. rewrite Hg, Ht.
    unfold save_course_content, try_except, bindM, os_makedirs, lift,
      open_write, logger_info, emit, external, consumer_commit, ret,
      Py.lower.
    rewrite Hmk. cbn [clock]. rewrite Hwr. cbn [clock files trace].
    reflexivity.
  - cbn [files Py.assoc]. fold filepath. now rewrite String.eqb_refl.
  - cbn [trace]. rewrite T1. fold filepath.
    rewrite <- !app_assoc. cbn [app]. rewrite <- !app_assoc. reflexivity.
Qed.

(** C9, counterexample: the course "A/B testing" is saved as
    [a_b_testing.md]; the name with the separator stripped is
    [ab_testing.md], and no such file is written. And when the store
    refuses the write, the same course is reported as processed and its
    offset is committed although no file exists. *)
Lemma separators_are_replaced_not_stripped :
  let message :=
    {| offset := 7; value := Samples.no_modules "A/B testing" |} in
  let w' :=
    snd (main_loop (Samples.answering "About experiments") [message]
           Samples.start) in
  let w'' :=
    snd (main_loop (Samples.refusing "About experiments") [message]
           Samples.start) in
  map fst (files w') = ["generated_courses/a_b_testing.md"]
  /\ Worded.relative_name "A/B testing" = "ab_testing.md"
  /\ Py.assoc ("generated_courses/" ++ Worded.relative_name "A/B testing")
       (files w') = None
  /\ files w'' = []
  /\ In (EvLog INFO (LogProcessed (VStr "A/B testing"))) (trace w'')
  /\ In (EvCommit 7) (trace w'').
Proof. repeat split; simpl; tauto. Qed.

(** ** The variant of a course *)

(** C6, evaluated on the scenario of the specification (title "Intro to
    Go", category "programming", one module): the classifier applied to
    the category answers CodeAnnotated, but [generate_course_content]
    applies it to the boolean of its own two-keyword test and raises
    [AttributeError] at the first module; and that two-keyword test is not
    the classifier: it is false on the category "python", which the
    classifier accepts. *)
Theorem variant_determination_misses_the_category :
  classify "programming" = Ok CodeAnnotated
  /\ software_or_programming Samples.intro_to_go = Ok (VBool true)
  /\ fst (generate_course_content (Samples.answering "Some text")
            Samples.intro_to_go Samples.start)
     = Raise AttributeError
  /\ classify "python" = Ok CodeAnnotated
  /\ software_or_programming (VDict [("category", VStr "python")])
     = Ok (VBool false).
Proof. repeat split. Qed.

(** ** The structure of the composed document *)

(** C10, counterexample: the artifact with the single module "A", whose
    body holds a line [## B], is composed into the very document of the
    artifact with the two modules "A" and "B"; the headings of that
    document are not the module titles of the first artifact, and no
    function of the document can return the module titles of both. *)
Lemma headings_do_not_recover_module_titles :
  Composer.render_course ComposerSamples.one_module
  = Composer.render_course ComposerSamples.two_modules
  /\ (exists doc,
        Composer.render_course ComposerSamples.one_module = Ok doc
        /\ Markdown.headings2 doc = ["Table of Contents"; "A"; "B"])
  /\ map Composer.title (Composer.modules ComposerSamples.one_module) = ["A"]
  /\ ~ exists parse : string -> list string,
         forall a doc,
           Composer.render_course a = Ok doc ->
           parse doc = map Composer.title (Composer.modules a).
Proof.
  split; [reflexivity|]. split; [eexists; split; reflexivity|].
  split; [reflexivity|].
  intros [parse H].
  pose proof (H ComposerSamples.one_module _ eq_refl) as H1.
  pose proof (H ComposerSamples.two_modules _ eq_refl) as H2.
  cbv in H1, H2. congruence.
Qed.

Section Headings.
Import Composer Markdown.

Lemma lines_nonempty (s : string) : lines s <> [].
Proof.
  induction s as [|c s IH]; cbn [lines]; [discriminate|].
  destruct (Ascii.eqb c newline); [discriminate|].
  destruct (lines s); [contradiction|discriminate].
Qed.

Lemma lines_app_nl (a b : string) :
  lines (a ++ nl ++ b) = (lines a ++ lines b)%list.
Proof.
  induction a as [|c a IH]; [reflexivity|].
  cbn [append lines]. rewrite IH.
  destruct (Ascii.eqb c newline); [reflexivity|].
  destruct (lines a) eqn:La; [|reflexivity].
  exfalso. exact (lines_nonempty a La).
Qed.

Lemma headings2_app_nl (a b : string) :
  headings2 (a ++ nl ++ b) = (headings2 a ++ headings2 b)%list.
Proof. unfold headings2. now rewrite lines_app_nl, flat_map_app. Qed.

Lemma headings2_join_nl (p : string) (ps : list string) :
  headings2 (join nl (p :: ps)) = flat_map headings2 (p :: ps).
Proof.
  revert p; induction ps as [|q ps IH]; intros p.
  - cbn [join flat_map]. now rewrite app_nil_r.
  - change (join nl (p :: q :: ps)) with (p ++ nl ++ join nl (q :: ps)).
    rewrite headings2_app_nl, IH. reflexivity.
Qed.

Lemma headings2_join_blank (ps : list string) :
  headings2 (join (nl ++ nl) ps) = flat_map headings2 ps.
Proof.
  induction ps as [|p ps IH]; [reflexivity|].
  destruct ps as [|q ps].
  - cbn [join flat_map]. now rewrite app_nil_r.
  - change (join (nl ++ nl) (p :: q :: ps))
      with (p ++ nl ++ (EmptyString ++ nl ++ join (nl ++ nl) (q :: ps))).
    rewrite !headings2_app_nl, IH. reflexivity.
Qed.

Lemma one_line_lines (s : string) : one_line s = true -> lines s = [s].
Proof.
  induction s as [|c s IH]; [reflexivity|].
  cbn [one_line lines]. intros H. apply andb_true_iff in H.
  destruct H as [Hc Hs]. apply negb_true_iff in Hc.
  now rewrite Hc, (IH Hs).
Qed.

Lemma headings2_heading (text : string) :
  one_line text = true -> headings2 ("## " ++ text) = [text].
Proof.
  intros H. unfold headings2.
  rewrite (one_line_lines ("## " ++ text)); [reflexivity|exact H].
Qed.

Lemma headings2_course_title (text : string) :
  one_line text = true -> headings2 ("# " ++ text) = [].
Proof.
  intros H. unfold headings2.
  rewrite (one_line_lines ("# " ++ text)); [reflexivity|exact H].
Qed.

Lemma render_module_headings (m : ModuleArtifact) :
  plain_module m ->
  exists text, render_module m = Ok text /\ headings2 text = [title m].
Proof.
  intros [Ht [Hb Hc]]. unfold render_module.
  destruct (codeExamples m) as [code|].
  - exists (join nl [EmptyString; "## " ++ title m; EmptyString;
                     strip (body m); EmptyString; "### Code Examples";
                     EmptyString; strip code; EmptyString]).
    split; [reflexivity|].
    rewrite headings2_join_nl. cbn [flat_map].
    rewrite (headings2_heading _ Ht), Hb, (Hc code eq_refl). reflexivity.
  - exists (join nl [EmptyString; "## " ++ title m; EmptyString;
                     strip (body m); EmptyString]).
    split; [reflexivity|].
    rewrite headings2_join_nl. cbn [flat_map].
    rewrite (headings2_heading _ Ht), Hb. reflexivity.
Qed.

Lemma render_modules_headings (ms : list ModuleArtifact) :
  Forall plain_module ms ->
  exists texts,
    mapR render_module ms = Ok texts
    /\ flat_map headings2 texts = map title ms.
Proof.
  induction 1 as [|m ms Hm _ [texts [E H]]].
  - now exists [].
  - destruct (render_module_headings m Hm) as [text [Et Ht]].
    exists (text :: texts). cbn [mapR bindR]. rewrite Et. cbn [bindR].
    rewrite E. split; [reflexivity|].
    cbn [flat_map map]. now rewrite Ht, H.
Qed.

End Headings.

(** C10, as amended. For every course artifact whose course title and
    module titles are single lines and whose inserted texts (trimmed
    description, table of contents, trimmed bodies and code examples) hold
    no line starting with [## ], the document is composed, and its level-2
    headings are [Table of Contents] followed by the module titles in
    their original order. *)
Theorem headings_of_composed_course (a : Composer.CourseArtifact) :
  Markdown.one_line (Composer.course_title a) = true ->
  Markdown.headings2 (strip (Composer.description a)) = [] ->
  Markdown.headings2 (Composer.tableOfContents a) = [] ->
  Forall plain_module (Composer.modules a) ->
  exists doc,
    Composer.render_course a = Ok doc
    /\ Markdown.headings2 doc
       = "Table of Contents"
         :: map Composer.title (Composer.modules a).
Proof.
  intros Ht Hd Htoc Hms.
  destruct (render_modules_headings _ Hms) as [texts [E H]].
  unfold Composer.render_course. rewrite E. cbn [bindR].
  exists (join nl [EmptyString; "# " ++ Composer.course_title a; EmptyString;
                   strip (Composer.description a); EmptyString;
                   "## Table of Contents"; Composer.tableOfContents a;
                   EmptyString; join (nl ++ nl) texts; EmptyString]).
  split; [reflexivity|].
  rewrite headings2_join_nl. cbn [flat_map].
  rewrite (headings2_course_title _ Ht), Hd, Htoc, headings2_join_blank, H.
  cbn. now rewrite app_nil_r.
Qed.

(** ** Concrete runs *)

(** The classifier on a category that spells "python" in mixed case. *)
Lemma classify_mixed_case_python :
  lower "PyThOn" = "python"
  /\ classify ("Learn " ++ "PyThOn" ++ " fast") = Ok CodeAnnotated.
Proof.
  split; [reflexivity|].
  apply (proj1 (proj2 (proj2 (proj2 is_software_course_classifies)))
           "Learn " "PyThOn" " fast").
  reflexivity.
Defined.

(** The table of contents of the specification's scenario. *)
Lemma table_of_contents_of_basics :
  modules_view (VList [Samples.basics])
  = Some [{| module_title := "Basics"; section_titles := ["Vars"; "Loops"] |}]
  /\ generate_table_of_contents (Samples.answering "text")
       (VList [Samples.basics])
     = Ok ("1. [Basics](#basics)" ++ nl ++ "   1.1. [Vars](#vars)" ++ nl
           ++ "   1.2. [Loops](#loops)").
Proof.
  split; [reflexivity|].
  exact (proj1 (generate_table_of_contents_entries
                  (Samples.answering "text") (VList [Samples.basics])
                  [{| module_title := "Basics";
                      section_titles := ["Vars"; "Loops"] |}]
                  eq_refl)).
Defined.

(** The scenario of the specification is never generated. *)
Lemma intro_to_go_is_never_generated :
  Py.getitem Samples.intro_to_go "modules" = Ok (VList [Samples.basics])
  /\ Py.iter (VList [Samples.basics]) = Ok [Samples.basics]
  /\ exists e w',
       generate_course_content (Samples.answering "text")
         Samples.intro_to_go Samples.start = (Raise e, w').
Proof.
  split; [reflexivity|]. split; [reflexivity|].
  exact (proj1 (course_with_modules_is_never_generated
                  (Samples.answering "text") Samples.intro_to_go
                  (VList [Samples.basics]) Samples.basics []
                  eq_refl eq_refl) Samples.start).
Defined.

(** A message whose description cannot be generated. *)
Lemma failed_description_is_dropped :
  let message := {| offset := 3; value := Samples.no_modules "Go" |} in
  let events :=
    [EvLog INFO (LogReceived message);
     EvLog INFO (LogGenerating (VStr "Go"));
     EvChatOpenAI true;
     EvChainRun description_prompt (VStr "Go") EmptyString None;
     EvLog ERROR (LogErrorGenerating ServiceError);
     EvLog ERROR (LogErrorProcessing ServiceError)] in
  trace (snd (process_message Samples.failing message Samples.start))
  = (trace Samples.start ++ events)%list
  /\ Exists failed_call events
  /\ files (snd (process_message Samples.failing message Samples.start))
     = files Samples.start
  /\ fst (main_loop Samples.failing [message; message] Samples.start)
     = Ok tt.
Proof.
  intros message events.
  assert (T : trace (snd (process_message Samples.failing message
                            Samples.start))
              = (trace Samples.start ++ events)%list) by reflexivity.
  assert (E : Exists failed_call events).
  { apply Exists_exists.
    exists (EvChainRun description_prompt (VStr "Go") EmptyString None).
    split; [simpl; tauto|exact I]. }
  split; [exact T|]. split; [exact E|].
  destruct (failed_generation_is_dropped Samples.failing message [message]
              Samples.start events T E) as [_ [F [_ [_ [_ L]]]]].
  split; [exact F|exact L].
Defined.

(** A message without a title. *)
Lemma untitled_message_is_skipped :
  let message := {| offset := 9; value := Samples.untitled |} in
  (exists d, value message = VDict d
             /\ (Py.assoc "title" d = None \/ Py.assoc "modules" d = None))
  /\ process_message (Samples.answering "text") message Samples.start
     = (Ok tt,
        {| clock := 0; files := [];
           trace := [EvLog INFO (LogReceived message);
                     EvLog ERROR (LogInvalidFormat Samples.untitled)] |}).
Proof.
  intros message.
  assert (H : exists d, value message = VDict d
                        /\ (Py.assoc "title" d = None
                            \/ Py.assoc "modules" d = None)).
  { exists [("modules", VList [Samples.basics])].
    split; [reflexivity|left; reflexivity]. }
  split; [exact H|].
  exact (proj1 (incomplete_message_is_skipped (Samples.answering "text")
                  message [] Samples.start (or_introl H))).
Defined.

(** The standard rendering of "Basics" for the answer " Hello ". *)
Lemma standard_rendering_of_basics :
  module_view Samples.basics
  = Some {| module_title := "Basics"; section_titles := ["Vars"; "Loops"] |}
  /\ chain_answer (Samples.answering " Hello ") (clock Samples.start)
     = Some " Hello "
  /\ fst (generate_standard_module (Samples.answering " Hello ")
            Samples.basics Samples.start)
     = Ok (nl ++ "## Basics" ++ nl ++ nl ++ "Hello" ++ nl).
Proof.
  split; [reflexivity|]. split; [reflexivity|].
  exact (proj1 (renderings_keep_template_line_breaks
                  (Samples.answering " Hello "))
           Samples.basics
           {| module_title := "Basics"; section_titles := ["Vars"; "Loops"] |}
           Samples.start " Hello " eq_refl eq_refl).
Defined.

(** A course without modules is generated, saved and committed. *)
Lemma ab_testing_is_saved_before_commit :
  let env := Samples.answering "About experiments" in
  let message :=
    {| offset := 7; value := Samples.no_modules "A/B testing" |} in
  exists content w1,
    Py.getitem (value message) "title" = Ok (VStr "A/B testing")
    /\ generate_course_content env (value message)
         (received message Samples.start) = (Ok content, w1)
    /\ makedirs_ok env (clock w1) = true
    /\ write_ok env (S (clock w1)) = true
    /\ exists w2,
         main_loop env [message] Samples.start = (Ok tt, w2)
         /\ Py.assoc "generated_courses/a_b_testing.md" (files w2)
            = Some content.
Proof.
  intros env message. eexists _, _.
  split; [reflexivity|]. split; [reflexivity|].
  split; [reflexivity|]. split; [reflexivity|].
  destruct (generated_course_is_saved_before_commit env message
              Samples.start _ "A/B testing" _
              eq_refl eq_refl eq_refl eq_refl)
    as [_ [w2 [before [L [F _]]]]].
  exists w2. split; [exact L|exact F].
Defined.

(** The headings of the document with the two modules "A" and "B". *)
Lemma headings_of_two_modules :
  Markdown.one_line (Composer.course_title ComposerSamples.two_modules)
  = true
  /\ Forall plain_module (Composer.modules ComposerSamples.two_modules)
  /\ exists doc,
       Composer.render_course ComposerSamples.two_modules = Ok doc
       /\ Markdown.headings2 doc = ["Table of Contents"; "A"; "B"].
Proof.
  assert (P : Forall plain_module
                (Composer.modules ComposerSamples.two_modules)).
  { repeat constructor; intros code H; discriminate. }
  split; [reflexivity|]. split; [exact P|].
  exact (headings_of_composed_course ComposerSamples.two_modules
           eq_refl eq_refl eq_refl P).
Defined.

(** * Further properties of the code *)

(** ** Text, again *)

Lemma append_assoc (a b c : string) : (a ++ b) ++ c = a ++ b ++ c.
Proof. induction a as [|x a IH]; simpl; [reflexivity|now rewrite IH]. Qed.

Lemma append_nil_r (a : string) : a ++ EmptyString = a.
Proof. induction a as [|x a IH]; simpl; [reflexivity|now rewrite IH]. Qed.

(** ** The classifier *)

(** X1. The classifier is closed under extension of the category: when a
    category is classified as a software course, so is every category
    that contains it. *)
Theorem is_software_course_extends (category pre post : string) :
  is_software_course (VStr category) = Ok true ->
  is_software_course (VStr (pre ++ category ++ post)) = Ok true.
Proof.
  intros H. apply is_software_course_iff in H.
  destruct H as [k [a [b [Hin E]]]].
  apply is_software_course_iff.
  exists k, (lower pre ++ a), (b ++ lower post). split; [exact Hin|].
  rewrite !lower_app, E.
  now rewrite !append_assoc.
Qed.

Lemma is_software_course_extends_web :
  is_software_course (VStr "Web") = Ok true
  /\ is_software_course (VStr ("Modern " ++ "Web" ++ " Design")) = Ok true.
Proof.
  split; [reflexivity|].
  apply (is_software_course_extends "Web" "Modern " " Design").
  reflexivity.
Defined.

(** X2. The test that [generate_course_content] computes for the variant is
    the disjunction of the keywords "software" and "programming" on the
    lowercased category (the empty category when the key is absent), and
    whenever it is true the classifier accepts the category as well. *)
Theorem inline_test_implies_classifier
    (d : list (string * json)) (category : string) :
  Py.get (VDict d) "category" (VStr EmptyString) = Ok (VStr category) ->
  software_or_programming (VDict d)
  = Ok (VBool (contains "software" (lower category)
               || contains "programming" (lower category)))
  /\ (software_or_programming (VDict d) = Ok (VBool true) ->
      is_software_course (VStr category) = Ok true).
Proof.
  intros Hc.
  assert (E : software_or_programming (VDict d)
              = Ok (VBool (contains "software" (lower category)
                           || contains "programming" (lower category)))).
  { unfold software_or_programming. rewrite Hc. cbn [bindR Py.lower].
    destruct (contains "software" (lower category)); reflexivity. }
  split; [exact E|]. rewrite E. intros H. injection H as H.
  unfold is_software_course. rewrite any_keyword_in_str.
  unfold software_keywords. cbn [existsb].
  destruct (contains "software" (lower category)); [reflexivity|].
  cbn [orb] in H |- *. now rewrite H.
Qed.

Lemma inline_test_on_programming :
  Py.get (VDict [("category", VStr "Programming 101")]) "category"
    (VStr EmptyString) = Ok (VStr "Programming 101")
  /\ is_software_course (VStr "Programming 101") = Ok true.
Proof.
  split; [reflexivity|].
  apply (proj2 (inline_test_implies_classifier
                  [("category", VStr "Programming 101")]
                  "Programming 101" eq_refl)).
  reflexivity.
Defined.

Lemma contains_longer (a b hay : string) :
  contains (a ++ b) hay = true -> contains a hay = true.
Proof.
  rewrite !contains_iff. intros [pre [post E]].
  exists pre, (b ++ post). now rewrite E, append_assoc.
Qed.

(** X3. The keyword "javascript" never decides: a category that contains
    it contains "java", so the classifier without "javascript" in its list
    gives the same answer on every category. *)
Theorem javascript_keyword_is_redundant (category : string) :
  any_keyword_in
    (filter (fun keyword => negb (String.eqb keyword "javascript"))
       software_keywords)
    (VStr category)
  = is_software_course (VStr category).
Proof.
  unfold is_software_course. rewrite !any_keyword_in_str. f_equal.
  change (filter (fun keyword => negb (String.eqb keyword "javascript"))
            software_keywords)
    with ["software"; "programming"; "coding"; "development"; "python";
          "java"; "c++"; "web"; "app"; "database"; "frontend"; "backend";
          "fullstack"; "data science"; "machine learning"].
  unfold software_keywords. cbn [existsb].
  destruct (contains "javascript" (lower category)) eqn:J;
    [|reflexivity].
  rewrite (contains_longer "java" "script" _ J).
  destruct (contains "software" (lower category)),
    (contains "programming" (lower category)),
    (contains "coding" (lower category)),
    (contains "development" (lower category)),
    (contains "python" (lower category)); reflexivity.
Qed.

(** ** The table of contents, again *)

Section TableOfContentsErrors.

Variable env : Env.

Lemma link_raises (x : json) :
  (forall e, Py.getitem x "title" = Raise e -> link env x = Raise e)
  /\ (forall t, Py.getitem x "title" = Ok t ->
        (forall s, t <> VStr s) -> link env x = Raise AttributeError).
Proof.
  unfold link. split.
  - intros e H. now rewrite H.
  - intros t H Hs. rewrite H. cbn [bindR].
    destruct t; try reflexivity. now destruct (Hs s).
Qed.

Lemma module_entries_then_bad (good : list json) :
  forall (outline : list ModuleOutline) (i : nat) (toc : list string)
         (bad : json) (rest : list json) (e : exn),
    all_some (map module_view good) = Some outline ->
    link env bad = Raise e ->
    foldR (enumerate_from i (good ++ bad :: rest)) toc
      (fun '(i, module) toc =>
         (entry <- link env module ;;
          let module_entry := string_of_nat i ++ ". " ++ entry in
          let toc := (toc ++ [module_entry])%list in
          has_sections <- Py.contains_key "sections" module ;;
          if has_sections then
            sections <- Py.getitem module "sections" ;;
            section_items <- Py.iter sections ;;
            foldR (enumerate_from 1 section_items) toc
              (fun '(j, section) toc =>
                 entry <- link env section ;;
                 let section_entry :=
                   "   " ++ string_of_nat i ++ "." ++ string_of_nat j ++ ". "
                   ++ entry in
                 Ok (toc ++ [section_entry])%list)
          else Ok toc)%R)
    = Raise e.
Proof.
  induction good as [|v good IH]; intros outline i toc bad rest e H Hb.
  - cbn [app enumerate_from foldR bindR]. now rewrite Hb.
  - apply all_some_cons in H. destruct H as [m [r [Hv [Hl ->]]]].
    cbn [app enumerate_from foldR bindR].
    rewrite (link_module env v m Hv). cbn [bindR].
    destruct (module_view_inv v m Hv) as [d [-> [Ht Hs]]].
    destruct Hs as [[Hs Hnil]|[secs [Hs Hsecs]]].
    + unfold Py.contains_key. rewrite Hs. cbn [bindR].
      exact (IH r (S i) _ bad rest e Hl Hb).
    + unfold Py.contains_key, Py.getitem. rewrite Hs. cbn [bindR Py.iter].
      rewrite (section_entries env i secs _ 1 _ Hsecs). cbn [bindR].
      exact (IH r (S i) _ bad rest e Hl Hb).
Qed.

End TableOfContentsErrors.

(** X4. [generate_table_of_contents] returns no partial table: after any
    number of well-formed modules, a module whose title cannot be read
    (not an object, or no "title" key) makes the whole call raise that
    error, and a module whose title is not a string makes it raise
    [AttributeError]; the modules after it are not looked at. *)
Theorem generate_table_of_contents_stops_at_bad_title
    (env : Env) (good : list json) (outline : list ModuleOutline)
    (bad : json) (rest : list json) :
  all_some (map module_view good) = Some outline ->
  (forall e, Py.getitem bad "title" = Raise e ->
     generate_table_of_contents env (VList (good ++ bad :: rest)) = Raise e)
  /\ (forall t, Py.getitem bad "title" = Ok t ->
        (forall s, t <> VStr s) ->
        generate_table_of_contents env (VList (good ++ bad :: rest))
        = Raise AttributeError).
Proof.
  intros H.
  assert (G : forall e, link env bad = Raise e ->
                generate_table_of_contents env (VList (good ++ bad :: rest))
                = Raise e).
  { intros e Hb. unfold generate_table_of_contents.
    change (Py.iter (VList (good ++ bad :: rest)))
      with (Ok (good ++ bad :: rest)%list).
    unfold bindR at 1.
    pose proof (module_entries_then_bad env good outline 1 [] bad rest e
                  H Hb) as E.
    cbv zeta in E. cbv zeta. now rewrite E. }
  destruct (link_raises env bad) as [L1 L2]. split.
  - intros e He. apply G, L1, He.
  - intros t Ht Hs. apply G. exact (L2 t Ht Hs).
Qed.

Lemma table_of_contents_with_untitled_module :
  all_some (map module_view [Samples.basics])
  = Some [{| module_title := "Basics"; section_titles := ["Vars"; "Loops"] |}]
  /\ Py.getitem (VDict [("name", VStr "Loops")]) "title"
     = Raise (KeyError "title")
  /\ generate_table_of_contents (Samples.answering "text")
       (VList [Samples.basics; VDict [("name", VStr "Loops")];
               Samples.basics])
     = Raise (KeyError "title").
Proof.
  split; [reflexivity|]. split; [reflexivity|].
  exact (proj1 (generate_table_of_contents_stops_at_bad_title
                  (Samples.answering "text") [Samples.basics] _
                  (VDict [("name", VStr "Loops")]) [Samples.basics]
                  eq_refl) _ eq_refl).
Defined.

Lemma generate_table_of_contents_view
    (env : Env) (modules : json) (outline : list ModuleOutline) :
  modules_view modules = Some outline ->
  generate_table_of_contents env modules
  = Ok (join nl (TocSpec.toc_lines outline)).
Proof.
  intros H. unfold modules_view in H. destruct modules; try discriminate.
  unfold generate_table_of_contents.
  change (Py.iter (VList l)) with (Ok l). unfold bindR at 1.
  pose proof (module_entries env l outline 1 [] H) as E.
  cbv zeta in E. cbv zeta. rewrite E. reflexivity.
Qed.

Section OneLine.
Import Markdown.

Lemma one_line_app (a b : string) :
  one_line (a ++ b) = one_line a && one_line b.
Proof.
  induction a as [|c a IH]; [reflexivity|].
  cbn [append one_line]. now rewrite IH, andb_assoc.
Qed.

Lemma one_line_lower (s : string) : one_line (lower s) = one_line s.
Proof.
  induction s as [|c s IH]; [reflexivity|].
  cbn [lower one_line]. rewrite IH. f_equal. f_equal.
  destruct c as [[] [] [] [] [] [] [] []]; reflexivity.
Qed.

Lemma one_line_hyphens (s : string) :
  one_line (replace " " "-" s) = one_line s.
Proof.
  induction s as [|c s IH]; [reflexivity|].
  cbn [replace one_line]. rewrite IH. f_equal. f_equal.
  destruct c as [[] [] [] [] [] [] [] []]; reflexivity.
Qed.

Lemma one_line_string_of_nat (n : nat) : one_line (string_of_nat n) = true.
Proof.
  unfold string_of_nat. generalize (Nat.to_uint n) as d.
  induction d; cbn [NilEmpty.string_of_uint one_line]; auto.
Qed.

Lemma one_line_anchor (title : string) :
  one_line (TocSpec.anchor title) = one_line title.
Proof. unfold TocSpec.anchor. now rewrite one_line_hyphens, one_line_lower. Qed.

Lemma one_line_module_line (i : nat) (title : string) :
  one_line title = true -> one_line (TocSpec.module_line i title) = true.
Proof.
  intros H. unfold TocSpec.module_line.
  rewrite !one_line_app, one_line_string_of_nat, one_line_anchor, H.
  reflexivity.
Qed.

Lemma one_line_section_line (i j : nat) (title : string) :
  one_line title = true -> one_line (TocSpec.section_line i j title) = true.
Proof.
  intros H. unfold TocSpec.section_line.
  rewrite !one_line_app, !one_line_string_of_nat, one_line_anchor, H.
  reflexivity.
Qed.

Lemma lines_join (ls : list string) :
  Forall (fun l => one_line l = true) ls -> ls <> [] ->
  lines (join nl ls) = ls.
Proof.
  induction 1 as [|p ps Hp Hps IH]; intros Hne; [contradiction|].
  destruct ps as [|q ps].
  - cbn [join]. now apply one_line_lines.
  - change (join nl (p :: q :: ps)) with (p ++ nl ++ join nl (q :: ps)).
    rewrite lines_app_nl, (one_line_lines p Hp), IH; [reflexivity|].
    discriminate.
Qed.

Lemma one_line_section_lines (i : nat) (titles : list string) :
  Forall (fun t => one_line t = true) titles ->
  forall j,
    Forall (fun l => one_line l = true)
      (map (fun '(j, title) => TocSpec.section_line i j title)
         (enumerate_from j titles)).
Proof.
  induction 1 as [|t ts Ht _ IH]; intros j; cbn [enumerate_from map];
    constructor; [now apply one_line_section_line|apply IH].
Qed.

Lemma one_line_toc_lines (outline : list ModuleOutline) :
  Forall (fun m => one_line (module_title m) = true
                   /\ Forall (fun t => one_line t = true)
                        (section_titles m)) outline ->
  forall i,
    Forall (fun l => one_line l = true)
      (concat (map TocSpec.block (enumerate_from i outline))).
Proof.
  induction 1 as [|m ms [Ht Hs] _ IH]; intros i;
    cbn [enumerate_from map concat]; [constructor|].
  apply Forall_app. split; [|apply IH].
  cbn [TocSpec.block]. constructor; [now apply one_line_module_line|].
  now apply one_line_section_lines.
Qed.

Lemma length_toc_lines (outline : list ModuleOutline) :
  forall i,
    length (concat (map TocSpec.block (enumerate_from i outline)))
    = length outline
      + list_sum (map (fun m => length (section_titles m)) outline).
Proof.
  induction outline as [|m ms IH]; intros i; [reflexivity|].
  cbn [enumerate_from map concat TocSpec.block list_sum length].
  rewrite length_app, IH. cbn [length].
  rewrite length_map.
  assert (E : forall (A : Type) (l : list A) j,
             length (enumerate_from j l) = length l).
  { intros A l. induction l as [|x l IHl]; intros j; simpl;
      [reflexivity|now rewrite IHl]. }
  rewrite E. unfold list_sum. cbn [fold_right]. lia.
Qed.

End OneLine.

(** X5. When the outline has at least one module and no title contains a
    line break, the table of contents splits at its line breaks into
    exactly its entries: one physical line per module and per section,
    [N + sections] lines in all. (For the empty outline the table is the
    empty text, which is one empty line.) *)
Theorem table_of_contents_splits_into_entries
    (env : Env) (modules : json) (outline : list ModuleOutline) :
  modules_view modules = Some outline ->
  outline <> [] ->
  Forall (fun m => Markdown.one_line (module_title m) = true
                   /\ Forall (fun t => Markdown.one_line t = true)
                        (section_titles m)) outline ->
  exists toc,
    generate_table_of_contents env modules = Ok toc
    /\ Markdown.lines toc = TocSpec.toc_lines outline
    /\ length (Markdown.lines toc)
       = length outline
         + list_sum (map (fun m => length (section_titles m)) outline).
Proof.
  intros Hv Hne Hl.
  exists (join nl (TocSpec.toc_lines outline)).
  split; [now apply generate_table_of_contents_view|].
  assert (E : Markdown.lines (join nl (TocSpec.toc_lines outline))
              = TocSpec.toc_lines outline).
  { apply lines_join; [now apply one_line_toc_lines|].
    unfold TocSpec.toc_lines. destruct outline as [|m ms];
      [contradiction|discriminate]. }
  split; [exact E|]. rewrite E. apply length_toc_lines.
Qed.

Lemma table_of_contents_of_basics_splits :
  modules_view (VList [Samples.basics])
  = Some [{| module_title := "Basics"; section_titles := ["Vars"; "Loops"] |}]
  /\ exists toc,
       generate_table_of_contents (Samples.answering "text")
         (VList [Samples.basics]) = Ok toc
       /\ length (Markdown.lines toc) = 3.
Proof.
  split; [reflexivity|].
  destruct (table_of_contents_splits_into_entries
              (Samples.answering "text") (VList [Samples.basics])
              [{| module_title := "Basics";
                  section_titles := ["Vars"; "Loops"] |}]
              eq_refl)
    as [toc [E [_ L]]].
  - discriminate.
  - repeat constructor.
  - exists toc. split; [exact E|exact L].
Defined.

Lemma anchor_chars (title : string) :
  string_forall (fun c => negb (is_blank c) && negb (is_upper c))
    (TocSpec.anchor title) = true.
Proof.
  unfold TocSpec.anchor. induction title as [|c title IH]; [reflexivity|].
  cbn [lower replace string_forall]. rewrite IH, andb_true_r.
  destruct c as [[] [] [] [] [] [] [] []]; reflexivity.
Qed.

Lemma anchor_collisions (title : string) :
  TocSpec.anchor (lower title) = TocSpec.anchor title
  /\ TocSpec.anchor (replace " " "-" title) = TocSpec.anchor title.
Proof.
  unfold TocSpec.anchor. induction title as [|c title [IH1 IH2]];
    [now split|].
  cbn [lower replace]. rewrite IH1, IH2.
  split; f_equal; destruct c as [[] [] [] [] [] [] [] []]; reflexivity.
Qed.

(** X6. The anchor that a table entry links to is a normal form of the
    title: it contains neither a space nor an uppercase ASCII letter, and
    it does not change when the title is lowercased or when its spaces are
    already hyphens, so titles that differ only in case or in space
    against hyphen link to the same anchor. *)
Theorem link_anchor_is_normal_form (env : Env) (x : json) (title : string) :
  Py.getitem x "title" = Ok (VStr title) ->
  exists anchor,
    link env x = Ok ("[" ++ title ++ "](#" ++ anchor ++ ")")
    /\ string_forall (fun c => negb (is_blank c) && negb (is_upper c))
         anchor = true
    /\ (forall other, Py.getitem other "title" = Ok (VStr (lower title))
                      \/ Py.getitem other "title"
                         = Ok (VStr (replace " " "-" title)) ->
          exists text,
            link env other = Ok ("[" ++ text ++ "](#" ++ anchor ++ ")")).
Proof.
  intros H. exists (TocSpec.anchor title).
  assert (L : forall y t, Py.getitem y "title" = Ok (VStr t) ->
                link env y = Ok ("[" ++ t ++ "](#" ++ TocSpec.anchor t ++ ")")).
  { intros y t Hy. unfold link. rewrite Hy. reflexivity. }
  destruct (anchor_collisions title) as [K1 K2].
  split; [exact (L x title H)|]. split; [exact (anchor_chars title)|].
  intros other [Ho|Ho].
  - exists (lower title). rewrite (L other _ Ho). now rewrite K1.
  - exists (replace " " "-" title). rewrite (L other _ Ho). now rewrite K2.
Qed.

Lemma link_anchor_of_getting_started :
  Py.getitem (VDict [("title", VStr "Getting Started")]) "title"
  = Ok (VStr "Getting Started")
  /\ exists anchor,
       link (Samples.answering "text")
         (VDict [("title", VStr "Getting Started")])
       = Ok ("[Getting Started](#" ++ anchor ++ ")")
       /\ string_forall (fun c => negb (is_blank c) && negb (is_upper c))
            anchor = true
       /\ exists text,
            link (Samples.answering "text")
              (VDict [("title", VStr "getting started")])
            = Ok ("[" ++ text ++ "](#" ++ anchor ++ ")").
Proof.
  split; [reflexivity|].
  destruct (link_anchor_is_normal_form (Samples.answering "text")
              (VDict [("title", VStr "Getting Started")])
              "Getting Started" eq_refl) as [anchor [E [C K]]].
  exists anchor. split; [exact E|]. split; [exact C|].
  exact (K (VDict [("title", VStr "getting started")])
           (or_introl eq_refl)).
Defined.

(** ** The modules *)

(** X7. For a module of the data model, [generate_standard_module] issues
    exactly one call to the text service, with the module prompt, the
    module title and the section titles joined by a comma (the sentinel
    "No specific sections" when there are none); it returns the rendering
    of the trimmed answer, or raises the service's error when the call
    fails; the files are not touched. *)
Theorem generate_standard_module_run
    (env : Env) (module : json) (m : ModuleOutline) (w : World) :
  module_view module = Some m ->
  generate_standard_module env module w
  = (match chain_answer env (clock w) with
     | Some text =>
         Ok (nl ++ "## " ++ module_title m ++ nl ++ nl ++ strip text ++ nl)
     | None => Raise ServiceError
     end,
     {| clock := S (clock w); files := files w;
        trace := (trace w
                  ++ [EvChainRun module_prompt (VStr (module_title m))
                        (sections_context (section_titles m))
                        (chain_answer env (clock w))])%list |}).
Proof.
  intros Hm. destruct (section_titles_of_view module m Hm) as [Ht Hs].
  unfold generate_standard_module, bindM, lift, chain_run, external.
  rewrite Hs, Ht, sections_argument_view.
  destruct (chain_answer env (clock w)); reflexivity.
Qed.

Lemma generate_standard_module_run_basics :
  module_view Samples.basics
  = Some {| module_title := "Basics"; section_titles := ["Vars"; "Loops"] |}
  /\ trace (snd (generate_standard_module Samples.failing Samples.basics
                   Samples.start))
     = [EvChainRun module_prompt (VStr "Basics") "Vars, Loops" None].
Proof.
  split; [reflexivity|].
  rewrite (generate_standard_module_run Samples.failing Samples.basics
             {| module_title := "Basics";
                section_titles := ["Vars"; "Loops"] |}
             Samples.start eq_refl).
  reflexivity.
Defined.

(** X8. For a module of the data model, [generate_software_module] first
    asks for the content and then for the code examples, both with the
    same title and section context. When the first call fails the second
    is never issued; when either fails the service's error is raised and
    no partial rendering is returned; otherwise the rendering holds both
    trimmed answers. *)
Theorem generate_software_module_run
    (env : Env) (module : json) (m : ModuleOutline) (w : World) :
  module_view module = Some m ->
  let title := VStr (module_title m) in
  let context := sections_context (section_titles m) in
  let first := chain_answer env (clock w) in
  let second := chain_answer env (S (clock w)) in
  generate_software_module env module w
  = match first with
    | None =>
        (Raise ServiceError,
         {| clock := S (clock w); files := files w;
            trace := (trace w
                      ++ [EvChainRun content_prompt title context None])%list
         |})
    | Some text =>
        (match second with
         | Some code =>
             Ok (nl ++ "## " ++ module_title m ++ nl ++ nl ++ strip text
                 ++ nl ++ nl ++ "### Code Examples" ++ nl ++ nl
                 ++ strip code ++ nl)
         | None => Raise ServiceError
         end,
         {| clock := S (S (clock w)); files := files w;
            trace := (trace w
                      ++ [EvChainRun content_prompt title context (Some text);
                          EvChainRun code_prompt title context second])%list
         |})
    end.
Proof.
  intros Hm title context first second. subst title context first second.
  destruct (section_titles_of_view module m Hm) as [Ht Hs].
  unfold generate_software_module, bindM, lift, chain_run, external.
  rewrite Hs, Ht, sections_argument_view.
  destruct (chain_answer env (clock w)) as [text|]; [|reflexivity].
  cbn [clock files trace].
  destruct (chain_answer env (S (clock w))) as [code|];
    rewrite <- app_assoc; reflexivity.
Qed.

Lemma generate_software_module_run_basics :
  module_view Samples.basics
  = Some {| module_title := "Basics"; section_titles := ["Vars"; "Loops"] |}
  /\ generate_software_module Samples.failing Samples.basics Samples.start
     = (Raise ServiceError,
        {| clock := 1; files := [];
           trace := [EvChainRun content_prompt (VStr "Basics") "Vars, Loops"
                       None] |}).
Proof.
  split; [reflexivity|].
  exact (generate_software_module_run Samples.failing Samples.basics
           {| module_title := "Basics"; section_titles := ["Vars"; "Loops"] |}
           Samples.start eq_refl).
Defined.

(** X9. A module whose title or whose section titles cannot be read costs
    no call: [generate_module_content] raises, for either variant, without
    any event and without any change of the world. *)
Theorem unreadable_module_costs_no_call
    (env : Env) (module : json) (is_software : bool) (w : World) (e : exn) :
  Py.getitem module "title" = Raise e
  \/ section_titles_of module = Raise e ->
  exists e', generate_module_content env module is_software w = (Raise e', w).
Proof.
  intros H.
  unfold generate_module_content, generate_software_module,
    generate_standard_module, bindM, lift.
  destruct (section_titles_of module) as [titles|e1].
  - destruct H as [H|H]; [|discriminate]. rewrite H.
    destruct is_software; now exists e.
  - destruct is_software; now exists e1.
Qed.

Lemma untitled_module_costs_no_call :
  Py.getitem (VDict [("name", VStr "Loops")]) "title"
  = Raise (KeyError "title")
  /\ exists e',
       generate_module_content Samples.failing
         (VDict [("name", VStr "Loops")]) true Samples.start
       = (Raise e', Samples.start).
Proof.
  split; [reflexivity|].
  exact (unreadable_module_costs_no_call Samples.failing
           (VDict [("name", VStr "Loops")]) true Samples.start
           (KeyError "title") (or_introl eq_refl)).
Defined.

(** ** The description and the course *)

Lemma mapR_module_titles (l : list json) :
  forall outline,
    all_some (map module_view l) = Some outline ->
    mapR (fun module => Py.getitem module "title") l
    = Ok (map VStr (map module_title outline)).
Proof.
  induction l as [|v l IH]; intros outline H.
  - injection H as <-. reflexivity.
  - apply all_some_cons in H. destruct H as [m [r [Hv [Hl ->]]]].
    cbn [mapR bindR map]. rewrite (IH r Hl).
    destruct (section_titles_of_view v m Hv) as [Ht _]. now rewrite Ht.
Qed.

Lemma mapR_stops {A B} (f : A -> result B) (good : list A) (bad : A)
    (rest : list A) (bs : list B) (e : exn) :
  mapR f good = Ok bs -> f bad = Raise e ->
  mapR f (good ++ bad :: rest) = Raise e.
Proof.
  revert bs. induction good as [|a good IH]; intros bs Hg Hb.
  - cbn [app mapR bindR]. now rewrite Hb.
  - cbn [app mapR bindR] in *. destruct (f a) as [b|]; [|discriminate].
    cbn [bindR] in *. destruct (mapR f good) as [bs'|]; [|discriminate].
    now rewrite (IH bs' eq_refl Hb).
Qed.

Lemma generate_course_description_view
    (env : Env) (course_data title : json) (l : list json)
    (outline : list ModuleOutline) (w : World) :
  Py.getitem course_data "title" = Ok title ->
  Py.getitem course_data "modules" = Ok (VList l) ->
  all_some (map module_view l) = Some outline ->
  generate_course_description env course_data w
  = (match chain_answer env (clock w) with
     | Some text => Ok (strip text)
     | None => Raise ServiceError
     end,
     {| clock := S (clock w); files := files w;
        trace := (trace w
                  ++ [EvChainRun description_prompt title
                        (join ", " (map module_title outline))
                        (chain_answer env (clock w))])%list |}).
Proof.
  intros Ht Hm Hv.
  unfold generate_course_description, bindM, lift, chain_run, external, ret.
  rewrite Hm. cbn [Py.iter]. rewrite (mapR_module_titles l outline Hv), Ht.
  rewrite join_strs.
  destruct (chain_answer env (clock w)); reflexivity.
Qed.

(** X10. [generate_course_description] issues exactly one call, with the
    description prompt, the course title and the module titles joined by a
    comma, and returns the trimmed answer or raises the service's error.
    When the title of some module cannot be read, it raises that error
    without any call. *)
Theorem generate_course_description_run
    (env : Env) (course_data title : json) (w : World) :
  Py.getitem course_data "title" = Ok title ->
  (forall l outline,
      Py.getitem course_data "modules" = Ok (VList l) ->
      all_some (map module_view l) = Some outline ->
      generate_course_description env course_data w
      = (match chain_answer env (clock w) with
         | Some text => Ok (strip text)
         | None => Raise ServiceError
         end,
         {| clock := S (clock w); files := files w;
            trace := (trace w
                      ++ [EvChainRun description_prompt title
                            (join ", " (map module_title outline))
                            (chain_answer env (clock w))])%list |}))
  /\ (forall good outline bad rest e,
        Py.getitem course_data "modules"
        = Ok (VList (good ++ bad :: rest)) ->
        all_some (map module_view good) = Some outline ->
        Py.getitem bad "title" = Raise e ->
        generate_course_description env course_data w = (Raise e, w)).
Proof.
  intros Ht. split.
  - intros l outline Hm Hv.
    exact (generate_course_description_view env _ _ l outline w Ht Hm Hv).
  - intros good outline bad rest e Hm Hv Hb.
    unfold generate_course_description, bindM, lift.
    rewrite Hm. cbn [Py.iter].
    now rewrite (mapR_stops _ good bad rest _ e
                   (mapR_module_titles good outline Hv) Hb).
Qed.

Lemma generate_course_description_of_intro_to_go :
  Py.getitem Samples.intro_to_go "title" = Ok (VStr "Intro to Go")
  /\ trace (snd (generate_course_description (Samples.answering "text")
                   Samples.intro_to_go Samples.start))
     = [EvChainRun description_prompt (VStr "Intro to Go") "Basics"
          (Some "text")].
Proof.
  split; [reflexivity|].
  rewrite (proj1 (generate_course_description_run
                    (Samples.answering "text") Samples.intro_to_go
                    (VStr "Intro to Go") Samples.start eq_refl)
             [Samples.basics]
             [{| module_title := "Basics";
                 section_titles := ["Vars"; "Loops"] |}]
             eq_refl eq_refl).
  reflexivity.
Defined.

Section CourseRuns.

Variable env : Env.

Lemma generate_course_content_ok_run
    (course_data : json) (w w' : World) (content : string) :
  generate_course_content env course_data w = (Ok content, w') ->
  exists title modules text,
    Py.getitem course_data "title" = Ok title
    /\ Py.getitem course_data "modules" = Ok modules
    /\ Py.iter modules = Ok []
    /\ ChatOpenAI_ok env (clock w) = true
    /\ chain_answer env (S (clock w)) = Some text
    /\ content
       = nl ++ "# " ++ str env title ++ nl ++ nl ++ strip text ++ nl ++ nl
         ++ "## Table of Contents" ++ nl ++ nl ++ nl ++ nl
    /\ w' = {| clock := S (S (clock w)); files := files w;
               trace := (trace w
                         ++ [EvLog INFO (LogGenerating title);
                             EvChatOpenAI true;
                             EvChainRun description_prompt title EmptyString
                               (Some text)])%list |}.
Proof.
  intros H.
  destruct (generate_course_content_ok_inv env _ _ _ _ H)
    as [title [modules [Ht [Hm Hi]]]].
  exists title, modules.
  revert H. unfold generate_course_content, try_except, bindM, lift,
    logger_info, emit, ChatOpenAI, external, generate_course_description,
    chain_run, ret, generate_table_of_contents.
  rewrite Ht, Hm, Hi. unfold bindM, lift. rewrite Hi.
  cbn [clock files trace bindR mapR Py.join enumerate_from foldR for_each].
  destruct (ChatOpenAI_ok env (clock w)); [|discriminate].
  cbn [clock files trace].
  destruct (chain_answer env (S (clock w))) as [text|]; [|discriminate].
  unfold ret, complete_course.
  intros H. injection H as <- <-. exists text.
  rewrite <- !app_assoc. repeat split.
  unfold external. cbn [clock files trace].
  now rewrite <- !app_assoc.
Qed.

Lemma generate_course_content_empty_run
    (course_data title modules : json) (text : string) (w : World) :
  Py.getitem course_data "title" = Ok title ->
  Py.getitem course_data "modules" = Ok modules ->
  Py.iter modules = Ok [] ->
  ChatOpenAI_ok env (clock w) = true ->
  chain_answer env (S (clock w)) = Some text ->
  generate_course_content env course_data w
  = (Ok (nl ++ "# " ++ str env title ++ nl ++ nl ++ strip text ++ nl ++ nl
         ++ "## Table of Contents" ++ nl ++ nl ++ nl ++ nl),
     {| clock := S (S (clock w)); files := files w;
        trace := (trace w
                  ++ [EvLog INFO (LogGenerating title);
                      EvChatOpenAI true;
                      EvChainRun description_prompt title EmptyString
                        (Some text)])%list |}).
Proof.
  intros Ht Hm Hi Hc Ha.
  unfold generate_course_content, try_except, bindM, lift,
    logger_info, emit, ChatOpenAI, external, generate_course_description,
    chain_run, ret, generate_table_of_contents.
  rewrite Ht, Hm, Hi. unfold bindM, lift. rewrite Hi.
  cbn [clock files trace bindR mapR Py.join enumerate_from foldR for_each].
  rewrite Hc. cbn [clock files trace].
  rewrite Ha. unfold ret, complete_course, external.
  cbn [clock files trace]. rewrite <- !app_assoc. reflexivity.
Qed.

End CourseRuns.

(** X11. [generate_course_content] returns a document exactly when the
    title can be read, the modules iterate to nothing, the client can be
    built and the description is answered. The document then holds the
    title, the trimmed description and an empty table of contents, and the
    run consists of the log record, the client and the one call. *)
Theorem generate_course_content_succeeds_iff
    (env : Env) (course_data : json) (w w' : World) (content : string) :
  generate_course_content env course_data w = (Ok content, w')
  <-> exists title modules text,
        Py.getitem course_data "title" = Ok title
        /\ Py.getitem course_data "modules" = Ok modules
        /\ Py.iter modules = Ok []
        /\ ChatOpenAI_ok env (clock w) = true
        /\ chain_answer env (S (clock w)) = Some text
        /\ content
           = nl ++ "# " ++ str env title ++ nl ++ nl ++ strip text ++ nl
             ++ nl ++ "## Table of Contents" ++ nl ++ nl ++ nl ++ nl
        /\ w' = {| clock := S (S (clock w)); files := files w;
                   trace := (trace w
                             ++ [EvLog INFO (LogGenerating title);
                                 EvChatOpenAI true;
                                 EvChainRun description_prompt title
                                   EmptyString (Some text)])%list |}.
Proof.
  split.
  - apply generate_course_content_ok_run.
  - intros [title [modules [text [Ht [Hm [Hi [Hc [Ha [-> ->]]]]]]]]].
    now apply generate_course_content_empty_run with (modules := modules).
Qed.

Lemma generate_course_content_of_empty_course :
  exists content w',
    generate_course_content (Samples.answering " About Go. ")
      (Samples.no_modules "Go") Samples.start = (Ok content, w')
    /\ content
       = nl ++ "# Go" ++ nl ++ nl ++ "About Go." ++ nl ++ nl
         ++ "## Table of Contents" ++ nl ++ nl ++ nl ++ nl
    /\ clock w' = 2.
Proof.
  eexists _, _. split.
  - apply (proj2 (generate_course_content_succeeds_iff
                    (Samples.answering " About Go. ")
                    (Samples.no_modules "Go") Samples.start _ _)).
    exists (VStr "Go"), (VList []), " About Go. ".
    split; [reflexivity|]. split; [reflexivity|]. split; [reflexivity|].
    split; [reflexivity|]. split; [reflexivity|]. split; reflexivity.
  - split; reflexivity.
Defined.

(** X12. For a course of the data model with at least one module, a client
    that can be built and a description that is answered,
    [generate_course_content] spends the description call, builds the
    table of contents, and then raises [AttributeError] at the first
    module: the run is the log record, the client, the one answered call
    and the error record, and no module call is ever issued. *)
Theorem course_with_modules_spends_one_call
    (env : Env) (course_data title first : json) (others : list json)
    (outline : list ModuleOutline) (text : string) (w : World) :
  Py.getitem course_data "title" = Ok title ->
  Py.getitem course_data "modules" = Ok (VList (first :: others)) ->
  all_some (map module_view (first :: others)) = Some outline ->
  ChatOpenAI_ok env (clock w) = true ->
  chain_answer env (S (clock w)) = Some text ->
  generate_course_content env course_data w
  = (Raise AttributeError,
     {| clock := S (S (clock w)); files := files w;
        trace := (trace w
                  ++ [EvLog INFO (LogGenerating title);
                      EvChatOpenAI true;
                      EvChainRun description_prompt title
                        (join ", " (map module_title outline)) (Some text);
                      EvLog ERROR (LogErrorGenerating AttributeError)])%list
     |}).
Proof.
  intros Ht Hm Hv Hc Ha.
  unfold generate_course_content, try_except.
  unfold bindM at 1, lift at 1. rewrite Ht.
  unfold bindM at 1, logger_info, emit.
  unfold bindM at 1, ChatOpenAI, external. cbn [clock files trace].
  rewrite Hc. unfold bindM at 1.
  rewrite (generate_course_description_view env course_data title
             (first :: others) outline _ Ht Hm Hv).
  cbn [clock files trace]. rewrite Ha.
  unfold bindM at 1, lift at 1. rewrite Hm.
  unfold bindM at 1, lift at 1.
  rewrite (generate_table_of_contents_view env (VList (first :: others))
             outline Hv).
  unfold bindM at 1, lift at 1.
  unfold bindM at 1, lift at 1. cbn [Py.iter].
  unfold bindM at 1. cbn [for_each].
  unfold bindM at 1, lift at 1.
  rewrite variant_determination_raises.
  unfold bindM, logger_error, emit, raise. cbn [clock files trace].
  rewrite <- !app_assoc. reflexivity.
Qed.

Lemma intro_to_go_spends_one_call :
  Py.getitem Samples.intro_to_go "title" = Ok (VStr "Intro to Go")
  /\ ChatOpenAI_ok (Samples.answering "text") (clock Samples.start) = true
  /\ generate_course_content (Samples.answering "text")
       Samples.intro_to_go Samples.start
     = (Raise AttributeError,
        {| clock := 2; files := [];
           trace := [EvLog INFO (LogGenerating (VStr "Intro to Go"));
                     EvChatOpenAI true;
                     EvChainRun description_prompt (VStr "Intro to Go")
                       "Basics" (Some "text");
                     EvLog ERROR (LogErrorGenerating AttributeError)] |}).
Proof.
  split; [reflexivity|]. split; [reflexivity|].
  exact (course_with_modules_spends_one_call (Samples.answering "text")
           Samples.intro_to_go (VStr "Intro to Go") Samples.basics []
           [{| module_title := "Basics";
               section_titles := ["Vars"; "Loops"] |}]
           "text" Samples.start eq_refl eq_refl eq_refl eq_refl eq_refl).
Defined.

(** X13. [generate_course_content] logs what it raises: when it raises, the
    last event of the run is the error record of that very exception; when
    it returns, the run holds no error record at all. It never changes a
    file. *)
Theorem generate_course_content_logs_what_it_raises
    (env : Env) (course_data : json) (w : World) :
  let r := fst (generate_course_content env course_data w) in
  let w' := snd (generate_course_content env course_data w) in
  files w' = files w
  /\ match r with
     | Raise e =>
         exists evs,
           trace w'
           = (trace w ++ evs ++ [EvLog ERROR (LogErrorGenerating e)])%list
     | Ok _ =>
         exists evs,
           trace w' = (trace w ++ evs)%list
           /\ Forall (fun ev => match ev with
                                | EvLog ERROR _ => False
                                | _ => True
                                end) evs
     end.
Proof.
  intros r w'. subst r w'.
  destruct (generate_course_content env course_data w) as [r w'] eqn:E.
  cbn [fst snd].
  destruct (quiet_generate_course_content env course_data _ _ _ E)
    as [all [_ [F _]]].
  split; [exact F|].
  destruct r as [content|e].
  - destruct (generate_course_content_ok_run env _ _ _ _ E)
      as [title [modules [text [_ [_ [_ [_ [_ [_ ->]]]]]]]]].
    eexists. split; [reflexivity|]. repeat constructor.
  - unfold generate_course_content, try_except in E.
    match type of E with
    | context [match ?body w with _ => _ end] =>
        assert (Q : quiet body)
    end.
    { repeat first [ apply quiet_ChatOpenAI
                   | apply quiet_generate_course_description
                   | apply quiet_generate_module_content
                   | apply quiet_for_each; intros ? ?
                   | solve [auto with quiet]
                   | apply quiet_bind; [|intros ?] ]. }
    match type of Q with
    | quiet ?body =>
        destruct (body w) as [[content|e1] w1] eqn:Eb;
        [discriminate|];
        destruct (Q _ _ _ Eb) as [evs [T _]]
    end.
    unfold bindM, logger_error, emit, raise in E. injection E as <- <-.
    exists evs. cbn [trace]. now rewrite T, app_assoc.
Qed.

(** ** Saving *)

Section Saving.

Variable env : Env.

(** The four runs of [save_course_content]. *)
Lemma save_course_content_run (title : json) (content : string) (w : World) :
  save_course_content env title content w
  = (Ok tt,
     if makedirs_ok env (clock w) then
       match title with
       | VStr t =>
           if write_ok env (S (clock w)) then
             {| clock := S (S (clock w));
                files := (course_path t, content) :: files w;
                trace := (trace w
                          ++ [EvMakedirs "generated_courses" true;
                              EvWrite (course_path t) content true;
                              EvLog INFO (LogSaved (course_path t))])%list |}
           else
             {| clock := S (S (clock w)); files := files w;
                trace := (trace w
                          ++ [EvMakedirs "generated_courses" true;
                              EvWrite (course_path t) content false;
                              EvLog ERROR (LogErrorSaving OSError)])%list |}
       | _ =>
           {| clock := S (clock w); files := files w;
              trace := (trace w
                        ++ [EvMakedirs "generated_courses" true;
                            EvLog ERROR (LogErrorSaving AttributeError)])%list
           |}
       end
     else
       {| clock := S (clock w); files := files w;
          trace := (trace w
                    ++ [EvMakedirs "generated_courses" false;
                        EvLog ERROR (LogErrorSaving OSError)])%list |}).
Proof.
  unfold save_course_content, try_except, bindM, os_makedirs, open_write,
    logger_info, logger_error, emit, lift, external, course_path.
  destruct (makedirs_ok env (clock w)); cbn [clock trace files].
  - destruct title; cbn [Py.lower clock trace files];
      try (rewrite <- !app_assoc; reflexivity).
    destruct (write_ok env (S (clock w))); cbn [clock trace files];
      rewrite <- !app_assoc; reflexivity.
  - rewrite <- !app_assoc. reflexivity.
Qed.

End Saving.

(** X14. [save_course_content] never raises, and it creates the directory
    before it looks at the title. It attempts a write exactly when the
    directory was created and the title is a string: one write, to the
    path of the course. When the store accepts the write, the files gain
    the one file of the course and the run ends with the saved record;
    when the write is refused the run ends with an error record; when no
    write is attempted the files are as before and the run is the
    directory creation followed by the error record. *)
Theorem save_course_content_writes_iff
    (env : Env) (title : json) (content : string) (w : World) :
  let w' := snd (save_course_content env title content w) in
  let made := makedirs_ok env (clock w) in
  fst (save_course_content env title content w) = Ok tt
  /\ (exists evs,
        trace w'
        = (trace w ++ EvMakedirs "generated_courses" made :: evs)%list)
  /\ ((exists t,
         title = VStr t /\ made = true
         /\ write_ok env (S (clock w)) = true
         /\ files w' = (course_path t, content) :: files w
         /\ trace w'
            = (trace w
               ++ [EvMakedirs "generated_courses" true;
                   EvWrite (course_path t) content true;
                   EvLog INFO (LogSaved (course_path t))])%list)
      \/ (exists t e,
            title = VStr t /\ made = true
            /\ write_ok env (S (clock w)) = false
            /\ trace w'
               = (trace w
                  ++ [EvMakedirs "generated_courses" true;
                      EvWrite (course_path t) content false;
                      EvLog ERROR (LogErrorSaving e)])%list)
      \/ (((forall t, title <> VStr t) \/ made = false)
          /\ files w' = files w
          /\ exists e,
               trace w'
               = (trace w
                  ++ [EvMakedirs "generated_courses" made;
                      EvLog ERROR (LogErrorSaving e)])%list)).
Proof.
  intros w' made. subst w' made.
  rewrite save_course_content_run. cbn [fst snd].
  split; [reflexivity|].
  destruct (makedirs_ok env (clock w)) eqn:Hd.
  - destruct title;
      try (split; [eexists; reflexivity|]; right; right;
           split; [left; intros t; discriminate|];
           split; [reflexivity|]; exists AttributeError; reflexivity).
    destruct (write_ok env (S (clock w))) eqn:Hw.
    + split; [eexists; reflexivity|]. left. exists s. now repeat split.
    + split; [eexists; reflexivity|]. right. left.
      exists s, OSError. now repeat split.
  - split; [eexists; reflexivity|]. right. right.
    split; [now right|]. split; [reflexivity|].
    exists OSError. reflexivity.
Qed.

Lemma sanitize_is_safe (lowered : string) :
  string_forall (fun c => negb (is_separator c) && negb (is_blank c))
    (sanitize lowered) = true.
Proof.
  unfold sanitize. induction lowered as [|c s IH]; [reflexivity|].
  cbn [replace string_forall]. rewrite IH, andb_true_r.
  destruct c as [[] [] [] [] [] [] [] []]; reflexivity.
Qed.

(** X15. Whatever the title, the file is written directly under
    [generated_courses/]: when the directory can be created, the one write
    goes to [generated_courses/{name}.md] where [name] contains no slash,
    no backslash and no space, so a title cannot direct the write into
    another directory. *)
Theorem save_course_content_stays_in_directory
    (env : Env) (title content : string) (w : World) :
  makedirs_ok env (clock w) = true ->
  exists name,
    string_forall (fun c => negb (is_separator c) && negb (is_blank c))
      name = true
    /\ In (EvWrite ("generated_courses/" ++ name ++ ".md") content
             (write_ok env (S (clock w))))
          (trace (snd (save_course_content env (VStr title) content w)))
    /\ forall filepath text ok,
         In (EvWrite filepath text ok)
            (trace (snd (save_course_content env (VStr title) content w))) ->
         In (EvWrite filepath text ok) (trace w)
         \/ filepath = "generated_courses/" ++ name ++ ".md".
Proof.
  intros Hd. exists (sanitize (lower title)).
  split; [exact (sanitize_is_safe (lower title))|].
  rewrite save_course_content_run, Hd. cbn [snd].
  fold (course_path title).
  destruct (write_ok env (S (clock w))); cbn [trace]; split.
  - apply in_or_app. right. simpl. tauto.
  - intros filepath text ok H. apply in_app_or in H.
    destruct H as [H|H]; [now left|right].
    simpl in H. destruct H as [H|[H|[H|[]]]]; try discriminate.
    now injection H.
  - apply in_or_app. right. simpl. tauto.
  - intros filepath text ok H. apply in_app_or in H.
    destruct H as [H|H]; [now left|right].
    simpl in H. destruct H as [H|[H|[H|[]]]]; try discriminate.
    now injection H.
Qed.

Lemma save_of_a_path_like_title_stays_in_directory :
  makedirs_ok (Samples.answering "text") (clock Samples.start) = true
  /\ exists name,
       string_forall (fun c => negb (is_separator c) && negb (is_blank c))
         name = true
       /\ In (EvWrite ("generated_courses/" ++ name ++ ".md") "doc" true)
            (trace (snd (save_course_content (Samples.answering "text")
                           (VStr "../etc/passwd") "doc" Samples.start))).
Proof.
  split; [reflexivity|].
  destruct (save_course_content_stays_in_directory
              (Samples.answering "text") "../etc/passwd" "doc"
              Samples.start eq_refl) as [name [L [I _]]].
  exists name. split; [exact L|exact I].
Defined.

Lemma course_path_collisions (title : string) :
  course_path (lower title) = course_path title
  /\ course_path (replace " " "_" title) = course_path title
  /\ course_path (replace "/" "_" title) = course_path title
  /\ course_path (replace "\" "_" title) = course_path title.
Proof.
  unfold course_path.
  assert (E : sanitize (lower (replace " " "_" title)) = sanitize (lower title)
              /\ sanitize (lower (replace "/" "_" title))
                 = sanitize (lower title)
              /\ sanitize (lower (replace "\" "_" title))
                 = sanitize (lower title)).
  { unfold sanitize. induction title as [|c s [IH1 [IH2 IH3]]];
      [now repeat split|].
    cbn [lower replace]. rewrite IH1, IH2, IH3.
    repeat split; f_equal;
      destruct c as [[] [] [] [] [] [] [] []]; reflexivity. }
  destruct E as [E1 [E2 E3]].
  rewrite lower_idem, E1, E2, E3. now repeat split.
Qed.

(** X16. When the store accepts the directory and the write, the saved
    document can be read back under the path of the course and every other
    file is as before. Titles that differ only in letter case, or in a
    space, slash or backslash against an underscore, have the same path,
    so saving one replaces the document of the other. *)
Theorem saved_course_is_read_back
    (env : Env) (title content : string) (w : World) :
  makedirs_ok env (clock w) = true ->
  write_ok env (S (clock w)) = true ->
  let w' := snd (save_course_content env (VStr title) content w) in
  Py.assoc (course_path title) (files w') = Some content
  /\ (forall filepath, filepath <> course_path title ->
        Py.assoc filepath (files w') = Py.assoc filepath (files w))
  /\ (forall other,
        other = lower title \/ other = replace " " "_" title
        \/ other = replace "/" "_" title \/ other = replace "\" "_" title ->
        course_path other = course_path title).
Proof.
  intros Hd Hw w'. subst w'.
  rewrite save_course_content_run, Hd, Hw. cbn [snd files].
  split; [|split].
  - cbn [Py.assoc]. now rewrite String.eqb_refl.
  - intros filepath Hne. cbn [Py.assoc].
    apply String.eqb_neq in Hne. now rewrite Hne.
  - intros other Ho.
    destruct (course_path_collisions title) as [C1 [C2 [C3 C4]]].
    destruct Ho as [->|[->|[->| ->]]]; assumption.
Qed.

Lemma go_replaces_GO :
  let env := Samples.answering "text" in
  let w' := snd (save_course_content env (VStr "GO") "first" Samples.start) in
  makedirs_ok env (clock Samples.start) = true
  /\ write_ok env (S (clock Samples.start)) = true
  /\ Py.assoc (course_path "GO") (files w') = Some "first"
  /\ Py.assoc (course_path "GO")
       (files (snd (save_course_content env (VStr "go") "second" w')))
     = Some "second".
Proof.
  intros env w'. split; [reflexivity|]. split; [reflexivity|].
  destruct (saved_course_is_read_back env "GO" "first" Samples.start
              eq_refl eq_refl) as [R [_ C]].
  split; [exact R|].
  rewrite <- (C "go" (or_introl eq_refl)).
  exact (proj1 (saved_course_is_read_back env "go" "second" w'
                  eq_refl eq_refl)).
Defined.

(** X17. A failure of the store is reported as success: when a course has
    been generated but its title is not a string, or the store refuses
    the directory or the write, [process_message] returns normally, logs
    the error of [save_course_content] and then still logs that the course
    was processed. When no write was attempted (the title is not a string
    or the directory was refused) the files are as they were. *)
Theorem store_failure_is_reported_as_success
    (env : Env) (message : ConsumerRecord) (w w1 : World)
    (title : json) (content : string) :
  Py.getitem (value message) "title" = Ok title ->
  generate_course_content env (value message) (received message w)
  = (Ok content, w1) ->
  (forall t, title <> VStr t)
  \/ makedirs_ok env (clock w1) = false
  \/ write_ok env (S (clock w1)) = false ->
  let w' := snd (process_message env message w) in
  fst (process_message env message w) = Ok tt
  /\ ((forall t, title <> VStr t) \/ makedirs_ok env (clock w1) = false ->
      files w' = files w)
  /\ exists evs e,
       trace w'
       = (trace w ++ evs
          ++ [EvLog ERROR (LogErrorSaving e);
              EvLog INFO (LogProcessed title)])%list.
Proof.
  intros Ht Hg Hfail w'. subst w'.
  destruct (generate_course_content_ok_inv env _ _ _ _ Hg)
    as [title' [modules [Ht' [Hm _]]]].
  pose proof (all_in_title_modules _ _ _ Ht' Hm) as Hall.
  destruct (quiet_generate_course_content env _ _ _ _ Hg)
    as [gen [T1 [F1 _]]].
  unfold received in Hg, T1, F1. cbn [trace files] in T1, F1.
  assert (E : process_message env message w
              = (Ok tt,
                 let w2 := snd (save_course_content env title content w1) in
                 {| clock := clock w2; files := files w2;
                    trace := (trace w2
                              ++ [EvLog INFO (LogProcessed title)])%list |})).
  { unfold process_message, try_except, bindM, lift, logger_info, emit.
    rewrite Hall. cbn [negb]. rewrite Hg, Ht.
    rewrite save_course_content_run. reflexivity. }
  rewrite E. cbn [fst snd]. split; [reflexivity|].
  rewrite save_course_content_run. cbn [snd].
  destruct (makedirs_ok env (clock w1)) eqn:Hd.
  - destruct title;
      try (cbn [files trace]; split; [intros _; exact F1|];
           exists (EvLog INFO (LogReceived message) :: gen
                   ++ [EvMakedirs "generated_courses" true])%list,
             AttributeError;
           rewrite T1, <- !app_assoc; cbn [app];
           rewrite <- !app_assoc; reflexivity).
    destruct (write_ok env (S (clock w1))) eqn:Hw.
    + exfalso. destruct Hfail as [H|[H|H]]; try discriminate.
      now apply (H s).
    + cbn [files trace]. split.
      { intros [H|H]; [now destruct (H s)|discriminate]. }
      exists (EvLog INFO (LogReceived message) :: gen
              ++ [EvMakedirs "generated_courses" true;
                  EvWrite (course_path s) content false])%list, OSError.
      rewrite T1, <- !app_assoc. cbn [app]. rewrite <- !app_assoc.
      reflexivity.
  - cbn [files trace]. split; [intros _; exact F1|].
    exists (EvLog INFO (LogReceived message) :: gen
            ++ [EvMakedirs "generated_courses" false])%list, OSError.
    rewrite T1, <- !app_assoc. cbn [app]. rewrite <- !app_assoc.
    reflexivity.
Qed.

Lemma refused_write_is_reported_as_success :
  let env := Samples.refusing "About experiments" in
  let message :=
    {| offset := 7; value := Samples.no_modules "A/B testing" |} in
  exists content w1,
    generate_course_content env (value message)
      (received message Samples.start) = (Ok content, w1)
    /\ write_ok env (S (clock w1)) = false
    /\ fst (process_message env message Samples.start) = Ok tt.
Proof.
  intros env message. eexists _, _.
  split; [reflexivity|]. split; [reflexivity|].
  exact (proj1 (store_failure_is_reported_as_success env message
                  Samples.start _ (VStr "A/B testing") _
                  eq_refl eq_refl
                  (or_intror (or_intror eq_refl)))).
Defined.

(** ** Messages and the loop *)

(** X18. A payload that is not an object costs no call and writes nothing:
    [process_message] returns with the clock and the files as they were,
    and the run is the received record followed by the error of the
    validation when it raises (a number, a boolean or null), by the
    invalid-format record when the validation fails, and otherwise (an
    array or text that contains both "title" and "modules") by the two
    [TypeError] records of the generator and of [process_message]. *)
Theorem non_object_payload_is_harmless
    (env : Env) (message : ConsumerRecord) (w : World) :
  (forall d, value message <> VDict d) ->
  process_message env message w
  = (Ok tt,
     {| clock := clock w; files := files w;
        trace := (trace w
                  ++ EvLog INFO (LogReceived message)
                     :: match Py.all_in ["title"; "modules"] (value message)
                        with
                        | Raise e => [EvLog ERROR (LogErrorProcessing e)]
                        | Ok false =>
                            [EvLog ERROR (LogInvalidFormat (value message))]
                        | Ok true =>
                            [EvLog ERROR (LogErrorGenerating TypeError);
                             EvLog ERROR (LogErrorProcessing TypeError)]
                        end)%list |}).
Proof.
  intros Hn.
  assert (Hg : Py.getitem (value message) "title" = Raise TypeError).
  { destruct (value message); try reflexivity. now destruct (Hn d). }
  unfold process_message, try_except, bindM, lift, logger_info,
    logger_error, emit, generate_course_content, try_except, bindM, lift,
    raise.
  rewrite Hg.
  destruct (Py.all_in ["title"; "modules"] (value message)) as [[|]|e];
    unfold logger_error, emit; cbn [negb clock files trace];
    rewrite <- ?app_assoc; reflexivity.
Qed.

Lemma text_payload_is_harmless :
  let message :=
    {| offset := 4; value := VStr "a title and some modules" |} in
  (forall d, value message <> VDict d)
  /\ trace (snd (process_message Samples.failing message Samples.start))
     = [EvLog INFO (LogReceived message);
        EvLog ERROR (LogErrorGenerating TypeError);
        EvLog ERROR (LogErrorProcessing TypeError)].
Proof.
  intros message.
  assert (H : forall d, value message <> VDict d) by (intros d; discriminate).
  split; [exact H|].
  rewrite (non_object_payload_is_harmless Samples.failing message
             Samples.start H).
  reflexivity.
Defined.

Lemma committed_app (a b : list event) :
  committed (a ++ b) = (committed a ++ committed b)%list.
Proof. unfold committed. apply flat_map_app. Qed.

Lemma committed_none (evs : list event) :
  Forall (fun e => is_commit e = false) evs -> committed evs = [].
Proof.
  induction 1 as [|e evs He _ IH]; [reflexivity|].
  unfold committed in *. cbn [flat_map]. rewrite IH.
  destruct e; try reflexivity. discriminate.
Qed.

Lemma committed_cycle (message : ConsumerRecord) (events : list event) :
  cycle message events -> committed events = [offset message].
Proof.
  intros [body det outcome Hb Hd _].
  change (EvLog INFO (LogReceived message)
          :: body ++ [det; EvCommit (offset message)])%list
    with ([EvLog INFO (LogReceived message)]
          ++ body ++ [det] ++ [EvCommit (offset message)])%list.
  rewrite !committed_app, (committed_none body Hb).
  destruct det as [[] []| | | | |]; try discriminate; reflexivity.
Qed.

(** X19. Whatever the outcomes, the loop commits the offset of every
    delivered message exactly once and in delivery order: the commits among
    the events it adds are the offsets of the delivered messages. *)
Theorem every_message_is_committed_once
    (env : Env) (delivered : list ConsumerRecord) (w : World) :
  exists events,
    trace (snd (main_loop env delivered w)) = (trace w ++ events)%list
    /\ committed events = map offset delivered.
Proof.
  revert w. induction delivered as [|message rest IH]; intros w.
  - exists []. cbn [main_loop ret snd]. now rewrite app_nil_r.
  - destruct (process_message_cycle env message w)
      as [w1 [events [Hc [T1 [_ C1]]]]].
    rewrite (main_loop_step env message rest w w1 Hc).
    destruct (IH w1) as [more [T2 C2]].
    exists (events ++ more)%list. split.
    + now rewrite T2, T1, app_assoc.
    + rewrite committed_app, (committed_cycle message events C1), C2.
      reflexivity.
Qed.

Lemma assoc_app_kept {A} (p : string) (added l : list (string * A)) (c : A) :
  Py.assoc p l = Some c -> exists c', Py.assoc p (added ++ l) = Some c'.
Proof.
  intros H. induction added as [|[k v] added IH]; [now exists c|].
  cbn [app Py.assoc]. destruct (String.eqb p k); [now exists v|exact IH].
Qed.

Lemma process_message_files
    (env : Env) (message : ConsumerRecord) (w : World) :
  (forall n, write_ok env n = true) ->
  exists added,
    files (snd (process_message env message w)) = (added ++ files w)%list
    /\ length added <= 1.
Proof.
  intros Haccepted.
  destruct (process_message_run env message w)
    as [w1 [body [det [outcome [Hp [T [D Sh]]]]]]].
  destruct outcome; cbn [outcome_shape] in Sh.
  - destruct Sh as [gen [saving [saved [content [w2 [Hg _]]]]]].
    destruct (generate_course_content_ok_inv env _ _ _ _ Hg)
      as [title [modules [Ht [Hm _]]]].
    pose proof (all_in_title_modules _ _ _ Ht Hm) as Hall.
    destruct (quiet_generate_course_content env _ _ _ _ Hg)
      as [gen' [_ [F1 _]]].
    unfold received in Hg, F1. cbn [files] in F1.
    assert (E : files (snd (process_message env message w))
                = files (snd (save_course_content env title content w2))).
    { unfold process_message, try_except, bindM, lift, logger_info, emit.
      rewrite Hall. cbn [negb]. rewrite Hg, Ht.
      rewrite save_course_content_run. reflexivity. }
    rewrite E, save_course_content_run. cbn [snd].
    destruct (makedirs_ok env (clock w2));
      [|exists []; split; [exact F1|auto]].
    destruct title; try (exists []; split; [exact F1|auto]).
    rewrite Haccepted.
    exists [(course_path s, content)]. cbn [files]. rewrite F1.
    split; [reflexivity|auto].
  - rewrite Hp. cbn [snd]. destruct Sh as [_ [F _]].
    exists []. split; [exact F|auto].
  - rewrite Hp. cbn [snd]. destruct Sh as [_ [F _]].
    exists []. split; [exact F|auto].
Qed.

(** X20. As long as the store refuses no write, the loop never loses a
    file: the files after the loop are the files before it with at most
    one file added in front per delivered message, so every path that held
    a document before still holds one (possibly a newer one). *)
Theorem main_loop_keeps_files
    (env : Env) (delivered : list ConsumerRecord) (w : World) :
  (forall n, write_ok env n = true) ->
  exists added,
    files (snd (main_loop env delivered w)) = (added ++ files w)%list
    /\ length added <= length delivered
    /\ forall filepath content,
         Py.assoc filepath (files w) = Some content ->
         exists content',
           Py.assoc filepath (files (snd (main_loop env delivered w)))
           = Some content'.
Proof.
  intros Haccepted.
  assert (G : forall w, exists added,
             files (snd (main_loop env delivered w)) = (added ++ files w)%list
             /\ length added <= length delivered).
  { clear w. induction delivered as [|message rest IH]; intros w.
    - exists []. split; [reflexivity|auto].
    - destruct (process_message_cycle env message w)
        as [w1 [events [Hc [_ [F1 _]]]]].
      rewrite (main_loop_step env message rest w w1 Hc).
      destruct (IH w1) as [more [F2 L2]].
      destruct (process_message_files env message w Haccepted)
        as [one [F3 L3]].
      exists (more ++ one)%list. split.
      + now rewrite F2, F1, F3, app_assoc.
      + rewrite length_app. cbn [length]. lia. }
  destruct (G w) as [added [F L]]. exists added.
  split; [exact F|]. split; [exact L|].
  intros filepath content H. rewrite F. now apply assoc_app_kept with content.
Qed.

Lemma older_file_survives_a_saved_course :
  let env := Samples.answering "About experiments" in
  let w := {| clock := 0; files := [("generated_courses/old.md", "old")];
              trace := [] |} in
  let delivered :=
    [{| offset := 7; value := Samples.no_modules "A/B testing" |}] in
  (forall n, write_ok env n = true)
  /\ exists content',
       Py.assoc "generated_courses/old.md"
         (files (snd (main_loop env delivered w))) = Some content'.
Proof.
  intros env w delivered.
  split; [intros n; reflexivity|].
  destruct (main_loop_keeps_files env delivered w (fun n => eq_refl))
    as [added [_ [_ K]]].
  exact (K "generated_courses/old.md" "old" eq_refl).
Defined.

(** ** The entry point *)

Section EntryPoint.

Variable env : Env.

Lemma process_message_returns (message : ConsumerRecord) (w : World) :
  process_message env message w
  = (Ok tt, snd (process_message env message w)).
Proof.
  destruct (process_message_run env message w) as [w1 [_ [_ [_ [Hp _]]]]].
  now rewrite Hp.
Qed.

Lemma main_loop_cons (message : ConsumerRecord) (rest : list ConsumerRecord)
    (w : World) :
  main_loop env (message :: rest) w
  = main_loop env rest
      (snd (consumer_commit message (snd (process_message env message w)))).
Proof.
  cbn [main_loop]. unfold bindM.
  rewrite process_message_returns, consumer_commit_run. reflexivity.
Qed.

Lemma consume_yield (message : ConsumerRecord) (rest : list fetch)
    (w : World) :
  consume env (Yield message None :: rest) w
  = consume env rest
      (snd (consumer_commit message (snd (process_message env message w)))).
Proof.
  cbn [consume].
  rewrite process_message_returns, consumer_commit_run. reflexivity.
Qed.

Lemma consume_run (script : list fetch) :
  forall w,
    consume env script w
    = (ending_of script,
       match pending script with
       | Some message =>
           snd (process_message env message
                  (snd (main_loop env (completed script) w)))
       | None => snd (main_loop env (completed script) w)
       end).
Proof.
  induction script as [|step script IH]; intros w; [reflexivity|].
  destruct step as [message [e|]|e|]; try reflexivity.
  - cbn [consume ending_of pending completed main_loop ret snd].
    now rewrite process_message_returns.
  - rewrite consume_yield, IH.
    cbn [ending_of pending completed]. now rewrite main_loop_cons.
Qed.

Lemma consume_truncates (pre : list fetch) (stop : fetch) (rest : list fetch) :
  stops stop = true ->
  forall w, consume env (pre ++ stop :: rest) w
            = consume env (pre ++ [stop]) w.
Proof.
  intros Hs. induction pre as [|step pre IH]; intros w.
  - destruct stop as [message [e|]|e|]; try discriminate; reflexivity.
  - destruct step as [message [e|]|e|]; try reflexivity.
    cbn [app]. now rewrite !consume_yield, IH.
Qed.

End EntryPoint.

(** X21. Against a broker that may fail, the loop of [main] is the loop over
    the messages whose commits return, followed, when a commit raises, by
    the processing of that one message: it ends exhausted, interrupted or
    crashed as the script says, and its final world is the world of
    [main_loop] on the completed messages, with the message of the failed
    commit processed but not committed. *)
Theorem consume_is_main_loop_until_it_stops
    (env : Env) (script : list fetch) (w : World) :
  consume env script w
  = (ending_of script,
     match pending script with
     | Some message =>
         snd (process_message env message
                (snd (main_loop env (completed script) w)))
     | None => snd (main_loop env (completed script) w)
     end)
  /\ (forall delivered,
        script = map (fun message => Yield message None) delivered ->
        consume env script w = (Exhausted, snd (main_loop env delivered w))).
Proof.
  split; [apply consume_run|].
  intros delivered ->. rewrite consume_run.
  assert (E : forall l,
             ending_of (map (fun message => Yield message None) l) = Exhausted
             /\ pending (map (fun message => Yield message None) l) = None
             /\ completed (map (fun message => Yield message None) l) = l).
  { induction l as [|m l [E1 [E2 E3]]]; [now repeat split|].
    cbn [map ending_of pending completed]. now rewrite E1, E2, E3. }
  destruct (E delivered) as [-> [-> ->]]. reflexivity.
Qed.

(** X22. Once a turn raises, is interrupted, or is followed by a commit that
    raises, nothing more is processed: the turns after it in the script
    change neither the session nor the final world. *)
Theorem nothing_is_processed_after_the_loop_ends
    (env : Env) (environ : list (string * string)) (connect : option exn)
    (pre : list fetch) (stop : fetch) (rest : list fetch)
    (store : list (string * string)) :
  stops stop = true ->
  main env environ connect (pre ++ stop :: rest) store
  = main env environ connect (pre ++ [stop]) store.
Proof.
  intros Hs. unfold main.
  now rewrite (consume_truncates env pre stop rest Hs).
Qed.

Lemma nothing_is_processed_after_a_decode_error :
  stops (FetchRaises ValueError) = true
  /\ main (Samples.answering "text") [] None
       [FetchRaises ValueError;
        Yield {| offset := 2; value := Samples.no_modules "Go" |} None]
       []
     = main (Samples.answering "text") [] None [FetchRaises ValueError] [].
Proof.
  split; [reflexivity|].
  exact (nothing_is_processed_after_the_loop_ends (Samples.answering "text")
           [] None [] (FetchRaises ValueError)
           [Yield {| offset := 2; value := Samples.no_modules "Go" |} None]
           [] eq_refl).
Defined.

Lemma consume_of_one_good_turn :
  let message := {| offset := 2; value := Samples.untitled |} in
  consume Samples.failing [Yield message None] Samples.start
  = (Exhausted, snd (main_loop Samples.failing [message] Samples.start)).
Proof.
  intros message.
  exact (proj2 (consume_is_main_loop_until_it_stops Samples.failing
                  [Yield message None] Samples.start)
           [message] eq_refl).
Defined.

Section Commits.

Variable env : Env.

Lemma process_message_commits_nothing (message : ConsumerRecord) (w : World) :
  committed (trace (snd (process_message env message w)))
  = committed (trace w).
Proof.
  destruct (process_message_run env message w)
    as [w1 [body [det [outcome [Hp [T [D Sh]]]]]]].
  rewrite Hp. cbn [snd]. rewrite T.
  change (EvLog INFO (LogReceived message) :: body ++ [det])%list
    with ([EvLog INFO (LogReceived message)] ++ body ++ [det])%list.
  rewrite !committed_app,
    (committed_none body (outcome_shape_no_commit env _ _ _ _ _ _ Sh)).
  destruct det as [[] []| | | | |]; try discriminate;
    cbn; now rewrite app_nil_r.
Qed.

Lemma main_loop_committed (delivered : list ConsumerRecord) :
  forall w,
    committed (trace (snd (main_loop env delivered w)))
    = (committed (trace w) ++ map offset delivered)%list.
Proof.
  induction delivered as [|message rest IH]; intros w.
  - cbn [main_loop ret snd map]. now rewrite app_nil_r.
  - rewrite main_loop_cons, IH, consumer_commit_run. cbn [snd trace map].
    rewrite committed_app, process_message_commits_nothing.
    now rewrite <- app_assoc.
Qed.

End Commits.

(** X23. [main] commits exactly the completed messages: the offsets
    committed during the session are, in order and once each, the offsets
    of the messages that were yielded with a commit that returned before
    the loop ended. A message whose commit raised has been processed but
    its offset is not committed; when the consumer cannot be created
    nothing is committed. *)
Theorem main_commits_the_completed_messages
    (env : Env) (environ : list (string * string)) (connect : option exn)
    (script : list fetch) (store : list (string * string)) :
  committed (trace (snd (main env environ connect script store)))
  = match connect with
    | None => map offset (completed script)
    | Some _ => []
    end.
Proof.
  unfold main, create_consumer. destruct connect as [e|]; [reflexivity|].
  rewrite consume_run. cbn [snd].
  destruct (pending script) as [message|].
  - now rewrite process_message_commits_nothing, main_loop_committed.
  - now rewrite main_loop_committed.
Qed.

(** X24. [main] closes the consumer exactly when it has created it. When
    the consumer cannot be created, the error is logged by
    [create_consumer] and again by [main], no message is processed, the
    files are untouched and nothing is closed. When it is created, the
    session is the start record, the consumer, the subscription record,
    the events of the pipeline, at most one record on how the loop ended,
    and then the close and its record, with no other close before. *)
Theorem main_closes_what_it_created
    (env : Env) (environ : list (string * string)) (connect : option exn)
    (script : list fetch) (store : list (string * string)) :
  let session := fst (main env environ connect script store) in
  let w := snd (main env environ connect script store) in
  (In SClose session <-> connect = None)
  /\ match connect with
     | Some e =>
         w = {| clock := 0; files := store; trace := [] |}
         /\ In (SLog ERROR (LogErrorCreating e)) session
         /\ In (SLog ERROR (LogUnexpected e)) session
         /\ forall ev, ~ In (SPipeline ev) session
     | None =>
         exists config ended,
           session
           = (SLog INFO LogStarting :: SKafkaConsumer config true
              :: SLog INFO (LogSubscribed (KAFKA_TOPIC environ))
              :: map SPipeline (trace w) ++ ended
              ++ [SClose; SLog INFO LogClosed])%list
           /\ enable_auto_commit config = false
           /\ length ended <= 1
           /\ ~ In SClose (map SPipeline (trace w) ++ ended)
     end.
Proof.
  intros session w. subst session w.
  unfold main, create_consumer. destruct connect as [e|].
  - cbn [fst snd app]. split.
    + split; [|discriminate]. cbn [In].
      intros [H|[H|[H|[H|[]]]]]; discriminate.
    + split; [reflexivity|]. split; [simpl; tauto|].
      split; [simpl; tauto|]. intros ev. cbn [In].
      intros [H|[H|[H|[H|[]]]]]; discriminate.
  - destruct (consume env script
                {| clock := 0; files := store; trace := [] |})
      as [ending w] eqn:E.
    cbn [fst snd app]. split.
    + split; [reflexivity|]. intros _. right. right. right.
      apply in_or_app. right. apply in_or_app. right. now left.
    + eexists _, _. split; [reflexivity|]. split; [reflexivity|].
      split; [destruct ending; simpl; auto|].
      intros H. apply in_app_or in H. destruct H as [H|H].
      * apply in_map_iff in H. destruct H as [ev [H _]]. discriminate.
      * destruct ending; simpl in H; try tauto;
          destruct H as [H|[]]; discriminate.
Qed.
